(** * GitHub tool adapter: the two source variants and their contract

    The repository holds two near-duplicate adapters over the GitHub REST
    API: [github_server.py] (synchronous, built on [requests]) and
    [githubclaude.py] (asynchronous, built on [httpx]).  Every tool builds
    one HTTP request, hands it to the client library and renders the decoded
    JSON answer into a string.

    The development embeds both files as Rocq functions.  The network is an
    explicit part of the state: a [world] carries the credential read at
    start-up, an oracle answering each request, and the log of the requests
    sent so far. *)

From Stdlib Require Import String Ascii List ZArith Bool Lia.
From Stdlib Require Import DecimalString.
Import ListNotations.

Set Warnings "-register-all".

Local Open Scope list_scope.
Local Open Scope string_scope.

(** ** Python values and the string operations the adapters use *)

Module Py.

(** Decoded JSON as the Python [json] module yields it.  A [str] is a
    sequence of characters with code points below 256, one [ascii] each.  A
    [dict] is its item list in insertion order, with distinct keys; [lookup]
    takes the first item of a key.  JSON numbers with a fraction or an
    exponent (Python floats) are outside the model. *)
Inductive pyval : Type :=
| PNone
| PBool (b : bool)
| PInt (z : Z)
| PStr (s : string)
| PList (l : list pyval)
| PDict (d : list (string * pyval)).

Definition dict : Type := list (string * pyval).

(** Exceptions that reach the tool functions.  [RequestException] stands for
    the failures raised by the HTTP client library ([requests.RequestException]
    with its subclasses [ConnectionError], [Timeout], [HTTPError] and
    [JSONDecodeError]; in the asynchronous file the [httpx] errors and the
    decoder's [ValueError]) and carries [str(e)].  [AttributeError] is raised
    by [.get] on a value that is not a dict, [SubscriptError] is the
    [TypeError] (for a dict, on recent interpreters, [KeyError]) raised by
    [repos[:10]] on a value that cannot be sliced.  [ValueError] and
    [RecursionError] are the two failures of the JSON decoder that are not a
    [JSONDecodeError]: an integer literal longer than the interpreter's
    digit limit, and nesting deeper than its recursion limit. *)
Inductive exn : Type :=
| RequestException (msg : string)
| AttributeError
| SubscriptError
| ValueError (msg : string)
| RecursionError.

Inductive result (A : Type) : Type :=
| Returned (a : A)
| Raised (e : exn).
Arguments Returned {A} a.
Arguments Raised {A} e.

Definition bind {A B : Type} (r : result A) (k : A -> result B) : result B :=
  match r with
  | Returned a => k a
  | Raised e => Raised e
  end.

Notation "x <- r ;; k" := (bind r (fun x => k))
  (at level 61, r at next level, right associativity).

(** [str(n)] for an [int]. *)
Definition str_int (z : Z) : string := NilZero.string_of_int (Z.to_int z).

Definition str_bool (b : bool) : string := if b then "True" else "False".

Definition hex_digit (n : N) : ascii :=
  if (n <? 10)%N then ascii_of_N (48 + n) else ascii_of_N (87 + n).

(** [\xNN] with two lower-case hexadecimal digits. *)
Definition hex_escape (c : ascii) : string :=
  let n := N_of_ascii c in
  String "\" (String "x" (String (hex_digit (n / 16)) (String (hex_digit (n mod 16)) ""))).

Fixpoint contains_char (c : ascii) (s : string) : bool :=
  match s with
  | EmptyString => false
  | String a s' => Ascii.eqb a c || contains_char c s'
  end.

(** Characters below 256 that [repr] writes as they are. *)
Definition printable (c : ascii) : bool :=
  let n := N_of_ascii c in
  ((32 <=? n) && (n <? 127) || (161 <=? n) && negb (n =? 173))%N.

Definition repr_char (quote c : ascii) : string :=
  if Ascii.eqb c quote || Ascii.eqb c "\" then String "\" (String c "")
  else if Ascii.eqb c "009" then "\t"
  else if Ascii.eqb c "010" then "\n"
  else if Ascii.eqb c "013" then "\r"
  else if printable c then String c ""
  else hex_escape c.

Fixpoint repr_chars (quote : ascii) (s : string) : string :=
  match s with
  | EmptyString => ""
  | String c s' => repr_char quote c ++ repr_chars quote s'
  end.

(** [repr(s)] for a [str]: single quotes, unless the text has a single quote
    and no double quote. *)
Definition repr_str (s : string) : string :=
  let quote : ascii :=
    if contains_char "039" s && negb (contains_char "034" s)
    then "034"%char else "039"%char in
  String quote (repr_chars quote s ++ String quote "").

(** [sep.join(parts)]. *)
Fixpoint join (sep : string) (parts : list string) : string :=
  match parts with
  | [] => ""
  | [p] => p
  | p :: rest => p ++ sep ++ join sep rest
  end.

Fixpoint repr (v : pyval) : string :=
  match v with
  | PNone => "None"
  | PBool b => str_bool b
  | PInt z => str_int z
  | PStr s => repr_str s
  | PList l => "[" ++ join ", " (map repr l) ++ "]"
  | PDict d =>
      "{" ++ join ", " (map (fun kv => repr_str (fst kv) ++ ": " ++ repr (snd kv)) d) ++ "}"
  end.

(** [str(v)], which is what an f-string field [{v}] inserts. *)
Definition str (v : pyval) : string :=
  match v with
  | PStr s => s
  | _ => repr v
  end.

(** Truth value of [v], as tested by [if v] and [not v]. *)
Definition truthy (v : pyval) : bool :=
  match v with
  | PNone => false
  | PBool b => b
  | PInt z => negb (z =? 0)%Z
  | PStr s => negb (s =? "")
  | PList l => match l with [] => false | _ => true end
  | PDict d => match d with [] => false | _ => true end
  end.

Fixpoint lookup (k : string) (d : dict) : option pyval :=
  match d with
  | [] => None
  | (k', v) :: d' => if k' =? k then Some v else lookup k d'
  end.

(** [d.get(k, default)] on a dict. *)
Definition dict_get (d : dict) (k : string) (default : pyval) : pyval :=
  match lookup k d with
  | Some v => v
  | None => default
  end.

(** [v.get(k, default)] on any value: only a dict has the method. *)
Definition get (v : pyval) (k : string) (default : pyval) : result pyval :=
  match v with
  | PDict d => Returned (dict_get d k default)
  | _ => Raised AttributeError
  end.

(** White space as [str.strip()] sees it, among the characters below 256:
    tab to carriage return, the four separators 28-31, the space, NEL and the
    no-break space. *)
Definition isspace (c : ascii) : bool :=
  let n := N_of_ascii c in
  ((9 <=? n) && (n <=? 13) || (28 <=? n) && (n <=? 32) || (n =? 133) || (n =? 160))%N.

Fixpoint lstrip (s : string) : string :=
  match s with
  | EmptyString => ""
  | String c s' => if isspace c then lstrip s' else s
  end.

Fixpoint rstrip (s : string) : string :=
  match s with
  | EmptyString => ""
  | String c s' =>
      let r := rstrip s' in
      if isspace c && (r =? "") then "" else String c r
  end.

Definition strip (s : string) : string := rstrip (lstrip s).

(** [s[:n]] on a list. *)
Definition slice_to (n : nat) {A : Type} (l : list A) : list A := firstn n l.

Fixpoint chars (s : string) : list pyval :=
  match s with
  | EmptyString => []
  | String c s' => PStr (String c "") :: chars s'
  end.

(** [v[:n]] on any value, as the sequence the [for] loop then walks. *)
Definition slice (v : pyval) (n : nat) : result (list pyval) :=
  match v with
  | PList l => Returned (slice_to n l)
  | PStr s => Returned (slice_to n (chars s))
  | _ => Raised SubscriptError
  end.

(** [len(v)] for the values [slice] accepts. *)
Definition len (v : pyval) : nat :=
  match v with
  | PList l => List.length l
  | PStr s => String.length s
  | _ => 0
  end.

End Py.

Import Py.

(** The line break of the Python literals. *)
Definition nl : string := String "010" "".

(** ** The HTTP exchange, as the client libraries show it to the adapters *)

Module Http.

(** An outgoing request: what the adapters pass to [requests.get/post/put/
    delete] or to [client.request].  [req_json] is the [json=] argument,
    [req_timeout] the [timeout=] argument (in seconds) when one is given. *)
Record request : Type := mk_request {
  req_method : string;
  req_url : string;
  req_headers : list (string * string);
  req_json : option dict;
  req_timeout : option Z
}.

(** The body of an answer, by what the JSON decoder does with it: text it
    rejects as malformed (an empty body included), with the message of its
    [JSONDecodeError]; JSON with an integer literal over the interpreter's
    digit limit, on which it raises [ValueError] with a message; JSON nested
    too deep, on which it raises [RecursionError]; or text it decodes, with
    the value. *)
Inductive body : Type :=
| Undecodable (msg : string)
| Overlong (msg : string)
| Overdeep
| Json (v : pyval).

(** An answer that arrived, as the client library in use reports it.
    [status_error] is [Some m] when the library's [raise_for_status()]
    raises on the status of the answer, [m] being the text of that error,
    and [None] when it returns.  The two libraries differ here: [requests]
    raises for the statuses 400 to 599 only, [httpx] for every status
    outside 200 to 299 ([seen_by] below). *)
Record response : Type := mk_response {
  status_error : option string;
  resp_body : body
}.

(** What the network does with a request: no answer at all (DNS failure,
    refused connection, timeout), or an answer. *)
Inductive outcome : Type :=
| ConnectionFailed (msg : string)
| Responded (r : response).

(** The process state a tool call runs in: the credential read from the
    environment at start-up, the remote side, and the requests issued so
    far.  The remote side keeps state (a repository created by one call is
    there for the next): [net] gives its answer to a request after the
    requests it has already received. *)
Record world : Type := mk_world {
  GITHUB_PAT : option string;
  net : list request -> request -> outcome;
  sent : list request
}.

(** One call into the client library. *)
Definition send (w : world) (r : request) : result response * world :=
  (match net w (sent w) r with
   | ConnectionFailed m => Raised (RequestException m)
   | Responded resp => Returned resp
   end,
   {| GITHUB_PAT := GITHUB_PAT w; net := net w; sent := (sent w ++ [r])%list |}).

(** [response.raise_for_status()]. *)
Definition raise_for_status (r : response) : result unit :=
  match status_error r with
  | Some m => Raised (RequestException m)
  | None => Returned tt
  end.

(** [response.json()].  [requests] catches the decoder's [JSONDecodeError]
    and raises its own, a [RequestException]; every other exception of the
    decoder leaves the call as it is.  ([httpx] converts nothing; the
    asynchronous file catches every [Exception] around the call, whatever
    its class.) *)
Definition json (r : response) : result pyval :=
  match resp_body r with
  | Undecodable m => Raised (RequestException m)
  | Overlong m => Raised (ValueError m)
  | Overdeep => Raised RecursionError
  | Json v => Returned v
  end.

(** [if GITHUB_PAT]: the variable is set and not empty. *)
Definition pat_set (w : world) : option string :=
  match GITHUB_PAT w with
  | Some t => if truthy (PStr t) then Some t else None
  | None => None
  end.

End Http.

Import Http.

(** ** [github_server.py]: the synchronous variant *)

Module Sync.

(** [{"Authorization": f"token {GITHUB_PAT}"} if GITHUB_PAT else {}] *)
Definition auth_headers (w : world) : list (string * string) :=
  match pat_set w with
  | Some t => [("Authorization", "token " ++ t)]
  | None => []
  end.

Definition requests_get (w : world) (url : string) (headers : list (string * string)) :=
  send w (mk_request "GET" url headers None None).

Definition requests_post (w : world) (url : string) (headers : list (string * string))
    (payload : dict) :=
  send w (mk_request "POST" url headers (Some payload) None).

Definition requests_put (w : world) (url : string) (headers : list (string * string))
    (payload : dict) :=
  send w (mk_request "PUT" url headers (Some payload) None).

Definition requests_delete (w : world) (url : string) (headers : list (string * string)) :=
  send w (mk_request "DELETE" url headers None None).

(** [try: ... except requests.RequestException as e: return handler(str(e))]:
    any other exception leaves the function. *)
Definition except_RequestException (block : result string) (handler : string -> string)
    : result string :=
  match block with
  | Raised (RequestException e) => Returned (handler e)
  | other => other
  end.

(** The f-string of [get_user_info], lines 29-38. *)
Definition user_text (user_data : pyval) : result string :=
  name <- get user_data "name" (PStr "N/A") ;;
  login <- get user_data "login" PNone ;;
  bio <- get user_data "bio" (PStr "N/A") ;;
  public_repos <- get user_data "public_repos" (PInt 0) ;;
  followers <- get user_data "followers" (PInt 0) ;;
  following <- get user_data "following" (PInt 0) ;;
  location <- get user_data "location" (PStr "N/A") ;;
  company <- get user_data "company" (PStr "N/A") ;;
  created_at <- get user_data "created_at" (PStr "N/A") ;;
  Returned (strip (
    nl ++ "User: " ++ str name ++ " (@" ++ str login ++ ")" ++
    nl ++ "Bio: " ++ str bio ++
    nl ++ "Public Repos: " ++ str public_repos ++
    nl ++ "Followers: " ++ str followers ++
    nl ++ "Following: " ++ str following ++
    nl ++ "Location: " ++ str location ++
    nl ++ "Company: " ++ str company ++
    nl ++ "Created: " ++ str created_at ++
    nl ++ "        ")).

Definition get_user_info (w : world) (username : string) : result string * world :=
  let headers := auth_headers w in
  let (r, w') := requests_get w ("https://api.github.com/users/" ++ username) headers in
  (except_RequestException
     (response <- r ;;
      _ <- raise_for_status response ;;
      user_data <- json response ;;
      user_text user_data)
     (fun e => "Error fetching user info: " ++ e),
   w').

(** The f-string of [create_repository], lines 61-67. *)
Definition repo_text (repo_data : pyval) : result string :=
  full_name <- get repo_data "full_name" PNone ;;
  html_url <- get repo_data "html_url" PNone ;;
  description <- get repo_data "description" (PStr "N/A") ;;
  private <- get repo_data "private" (PBool false) ;;
  Returned (strip (
    nl ++ "Repository created successfully!" ++
    nl ++ "Name: " ++ str full_name ++
    nl ++ "URL: " ++ str html_url ++
    nl ++ "Description: " ++ str description ++
    nl ++ "Private: " ++ str private ++
    nl ++ "        ")).

(** [description] defaults to the empty string and [private] to [False]. *)
Definition create_repository (w : world) (name description : string) (private : bool)
    : result string * world :=
  let headers := auth_headers w in
  let payload : dict :=
    [("name", PStr name); ("description", PStr description); ("private", PBool private)] in
  let (r, w') := requests_post w "https://api.github.com/user/repos" headers payload in
  (except_RequestException
     (response <- r ;;
      _ <- raise_for_status response ;;
      repo_data <- json response ;;
      repo_text repo_data)
     (fun e => "Error creating repository: " ++ e),
   w').

Definition delete_repository (w : world) (owner repo : string) : result string * world :=
  let headers := auth_headers w in
  let (r, w') :=
    requests_delete w ("https://api.github.com/repos/" ++ owner ++ "/" ++ repo) headers in
  (except_RequestException
     (response <- r ;;
      _ <- raise_for_status response ;;
      Returned ("Repository " ++ owner ++ "/" ++ repo ++ " was deleted successfully!"))
     (fun e => "Error deleting repository: " ++ e),
   w').

(** The f-string of [create_pull_request], lines 107-113. *)
Definition pr_text (pr_data : pyval) : result string :=
  title <- get pr_data "title" PNone ;;
  number <- get pr_data "number" PNone ;;
  html_url <- get pr_data "html_url" PNone ;;
  state <- get pr_data "state" PNone ;;
  Returned (strip (
    nl ++ "Pull Request created successfully!" ++
    nl ++ "Title: " ++ str title ++
    nl ++ "PR #: " ++ str number ++
    nl ++ "URL: " ++ str html_url ++
    nl ++ "State: " ++ str state ++
    nl ++ "        ")).

(** [body] defaults to the empty string. *)
Definition create_pull_request (w : world) (owner repo title head base body : string)
    : result string * world :=
  let headers := auth_headers w in
  let payload : dict :=
    [("title", PStr title); ("head", PStr head); ("base", PStr base); ("body", PStr body)] in
  let (r, w') :=
    requests_post w ("https://api.github.com/repos/" ++ owner ++ "/" ++ repo ++ "/pulls")
      headers payload in
  (except_RequestException
     (response <- r ;;
      _ <- raise_for_status response ;;
      pr_data <- json response ;;
      pr_text pr_data)
     (fun e => "Error creating pull request: " ++ e),
   w').

(** The f-string of [merge_pull_request], lines 135-139. *)
Definition merge_text (pull_number : Z) (merge_data : pyval) : result string :=
  message <- get merge_data "message" PNone ;;
  sha <- get merge_data "sha" PNone ;;
  Returned (strip (
    nl ++ "Pull Request #" ++ str_int pull_number ++ " merged successfully!" ++
    nl ++ "Message: " ++ str message ++
    nl ++ "SHA: " ++ str sha ++
    nl ++ "        ")).

(** [payload = {}; if commit_message: payload["commit_message"] = commit_message] *)
Definition merge_payload (commit_message : string) : dict :=
  let payload : dict := [] in
  if truthy (PStr commit_message)
  then (payload ++ [("commit_message", PStr commit_message)])%list
  else payload.

(** [commit_message] defaults to the empty string. *)
Definition merge_pull_request (w : world) (owner repo : string) (pull_number : Z)
    (commit_message : string) : result string * world :=
  let headers := auth_headers w in
  let payload := merge_payload commit_message in
  let (r, w') :=
    requests_put w
      ("https://api.github.com/repos/" ++ owner ++ "/" ++ repo ++ "/pulls/" ++
       str_int pull_number ++ "/merge")
      headers payload in
  (except_RequestException
     (response <- r ;;
      _ <- raise_for_status response ;;
      merge_data <- json response ;;
      merge_text pull_number merge_data)
     (fun e => "Error merging pull request: " ++ e),
   w').

(** The loop of lines 160-162: one appended line per walked element. *)
Fixpoint repo_lines (items : list pyval) : result (list string) :=
  match items with
  | [] => Returned []
  | repo :: rest =>
      full_name <- get repo "full_name" PNone ;;
      description <- get repo "description" (PStr "No description") ;;
      html_url <- get repo "html_url" PNone ;;
      repo_list <- repo_lines rest ;;
      Returned (("- " ++ str full_name ++ ": " ++ str description ++
                 " (" ++ str html_url ++ ")") :: repo_list)
  end.

(** Lines 157-164. *)
Definition repos_text (repos : pyval) : result string :=
  if negb (truthy repos) then Returned "No repositories found."
  else
    items <- slice repos 10 ;;
    repo_list <- repo_lines items ;;
    Returned ("Repositories:" ++ nl ++ join nl repo_list ++
              (if (10 <? len repos)%nat
               then nl ++ nl ++ "(Showing 10 of " ++ str_int (Z.of_nat (len repos)) ++
                    " repositories)"
               else "")).

(** [username] defaults to the empty string. *)
Definition list_repositories (w : world) (username : string) : result string * world :=
  let headers := auth_headers w in
  let url :=
    if truthy (PStr username)
    then "https://api.github.com/users/" ++ username ++ "/repos"
    else "https://api.github.com/user/repos" in
  let (r, w') := requests_get w url headers in
  (except_RequestException
     (response <- r ;;
      _ <- raise_for_status response ;;
      repos <- json response ;;
      repos_text repos)
     (fun e => "Error listing repositories: " ++ e),
   w').

(** [name] is [None] when the caller leaves the argument out. *)
Definition hello_world (name : option string) : string :=
  let name := match name with Some n => n | None => "World" end in
  "Hello, " ++ name ++ "!".

End Sync.

(** ** [githubclaude.py]: the asynchronous variant

    [await] only suspends the caller until the one request is answered; the
    value computed is that of the sequential reading below. *)

Module Async.

Definition GITHUB_API_BASE : string := "https://api.github.com".
Definition USER_AGENT : string := "github-mcp-client/1.0".

(** [make_github_request], lines 17-37.  [except Exception: return None]
    turns every failure of the three library calls into [None]. *)
Definition make_github_request (w : world) (method endpoint : string) (json : option dict)
    : pyval * world :=
  let headers :=
    [("User-Agent", USER_AGENT); ("Accept", "application/vnd.github+json")] in
  let headers :=
    match pat_set w with
    | Some t => List.app headers [("Authorization", "Bearer " ++ t)]
    | None => headers
    end in
  let url := GITHUB_API_BASE ++ endpoint in
  let (r, w') := send w (mk_request method url headers json (Some 30%Z)) in
  (match (response <- r ;;
          _ <- raise_for_status response ;;
          Http.json response) with
   | Returned v => v
   | Raised _ => PNone
   end,
   w').

(** The f-string of [github_user_info], lines 46-55. *)
Definition user_text (data : pyval) : result string :=
  name <- get data "name" (PStr "N/A") ;;
  login <- get data "login" PNone ;;
  bio <- get data "bio" (PStr "N/A") ;;
  public_repos <- get data "public_repos" (PInt 0) ;;
  followers <- get data "followers" (PInt 0) ;;
  following <- get data "following" (PInt 0) ;;
  location <- get data "location" (PStr "N/A") ;;
  company <- get data "company" (PStr "N/A") ;;
  created_at <- get data "created_at" (PStr "N/A") ;;
  Returned (strip (
    nl ++ "User: " ++ str name ++ " (@" ++ str login ++ ")" ++
    nl ++ "Bio: " ++ str bio ++
    nl ++ "Public Repos: " ++ str public_repos ++
    nl ++ "Followers: " ++ str followers ++
    nl ++ "Following: " ++ str following ++
    nl ++ "Location: " ++ str location ++
    nl ++ "Company: " ++ str company ++
    nl ++ "Created: " ++ str created_at ++
    nl)).

Definition github_user_info (w : world) (username : string) : result string * world :=
  let (data, w') := make_github_request w "GET" ("/users/" ++ username) None in
  (if negb (truthy data) then Returned "Error fetching user info."
   else user_text data,
   w').

(** The f-string of [create_repository], lines 66-72. *)
Definition repo_text (data : pyval) : result string :=
  full_name <- get data "full_name" PNone ;;
  html_url <- get data "html_url" PNone ;;
  description <- get data "description" (PStr "N/A") ;;
  private <- get data "private" (PBool false) ;;
  Returned (strip (
    nl ++ "Repository created successfully!" ++
    nl ++ "Name: " ++ str full_name ++
    nl ++ "URL: " ++ str html_url ++
    nl ++ "Description: " ++ str description ++
    nl ++ "Private: " ++ str private ++
    nl)).

(** [description] defaults to the empty string and [private] to [False]. *)
Definition create_repository (w : world) (name description : string) (private : bool)
    : result string * world :=
  let payload : dict :=
    [("name", PStr name); ("description", PStr description); ("private", PBool private)] in
  let (data, w') := make_github_request w "POST" "/user/repos" (Some payload) in
  (if negb (truthy data) then Returned "Error creating repository."
   else repo_text data,
   w').

Definition delete_repository (w : world) (owner repo : string) : result string * world :=
  let (data, w') :=
    make_github_request w "DELETE" ("/repos/" ++ owner ++ "/" ++ repo) None in
  (match data with
   | PNone => Returned ("Repository " ++ owner ++ "/" ++ repo ++ " was deleted successfully!")
   | _ => Returned "Error deleting repository."
   end,
   w').

(** The f-string of [create_pull_request], lines 91-97. *)
Definition pr_text (data : pyval) : result string :=
  title <- get data "title" PNone ;;
  number <- get data "number" PNone ;;
  html_url <- get data "html_url" PNone ;;
  state <- get data "state" PNone ;;
  Returned (strip (
    nl ++ "Pull Request created successfully!" ++
    nl ++ "Title: " ++ str title ++
    nl ++ "PR #: " ++ str number ++
    nl ++ "URL: " ++ str html_url ++
    nl ++ "State: " ++ str state ++
    nl)).

(** [body] defaults to the empty string. *)
Definition create_pull_request (w : world) (owner repo title head base body : string)
    : result string * world :=
  let payload : dict :=
    [("title", PStr title); ("head", PStr head); ("base", PStr base); ("body", PStr body)] in
  let (data, w') :=
    make_github_request w "POST" ("/repos/" ++ owner ++ "/" ++ repo ++ "/pulls")
      (Some payload) in
  (if negb (truthy data) then Returned "Error creating pull request."
   else pr_text data,
   w').

(** The f-string of [merge_pull_request], lines 108-112. *)
Definition merge_text (pull_number : Z) (data : pyval) : result string :=
  message <- get data "message" PNone ;;
  sha <- get data "sha" PNone ;;
  Returned (strip (
    nl ++ "Pull Request #" ++ str_int pull_number ++ " merged successfully!" ++
    nl ++ "Message: " ++ str message ++
    nl ++ "SHA: " ++ str sha ++
    nl)).

(** [{"commit_message": commit_message} if commit_message else {}] *)
Definition merge_payload (commit_message : string) : dict :=
  if truthy (PStr commit_message) then [("commit_message", PStr commit_message)] else [].

(** [commit_message] defaults to the empty string. *)
Definition merge_pull_request (w : world) (owner repo : string) (pull_number : Z)
    (commit_message : string) : result string * world :=
  let payload := merge_payload commit_message in
  let (data, w') :=
    make_github_request w "PUT"
      ("/repos/" ++ owner ++ "/" ++ repo ++ "/pulls/" ++ str_int pull_number ++ "/merge")
      (Some payload) in
  (if negb (truthy data) then Returned "Error merging pull request."
   else merge_text pull_number data,
   w').

(** The loop of lines 123-125: one appended line per walked element. *)
Fixpoint repo_lines (items : list pyval) : result (list string) :=
  match items with
  | [] => Returned []
  | repo :: rest =>
      full_name <- get repo "full_name" PNone ;;
      description <- get repo "description" (PStr "No description") ;;
      html_url <- get repo "html_url" PNone ;;
      repo_list <- repo_lines rest ;;
      Returned (("- " ++ str full_name ++ ": " ++ str description ++
                 " (" ++ str html_url ++ ")") :: repo_list)
  end.

(** [username] defaults to the empty string. *)
Definition list_repositories (w : world) (username : string) : result string * world :=
  let endpoint :=
    if truthy (PStr username) then "/users/" ++ username ++ "/repos" else "/user/repos" in
  let (repos, w') := make_github_request w "GET" endpoint None in
  (if negb (truthy repos) then Returned "No repositories found or error occurred."
   else
     items <- slice repos 10 ;;
     repo_list <- repo_lines items ;;
     Returned ("Repositories:" ++ nl ++ join nl repo_list ++
               (if (10 <? len repos)%nat
                then nl ++ nl ++ "(Showing 10 of " ++ str_int (Z.of_nat (len repos)) ++
                     " repositories)"
                else "")),
   w').

(** [name] is [None] when the caller leaves the argument out. *)
Definition hello_world (name : option string) : string :=
  let name := match name with Some n => n | None => "World" end in
  "Hello, " ++ name ++ "!".

End Async.

(** ** Vocabulary of the contract *)

(** The remote side answers [o], whatever is asked. *)
Definition answers (w : world) (o : outcome) : Prop := forall h r, net w h r = o.

(** An answer whose status the library accepts ([raise_for_status()]
    returns) and whose body decodes to [v]. *)
Definition ok (v : pyval) : outcome := Responded (mk_response None (Json v)).

(** The remote call failed: no answer, or an answer on whose status the
    library's [raise_for_status()] raises.  Which statuses those are depends
    on the library; [rejected_by] names them by number. *)
Definition failed (o : outcome) : bool :=
  match o with
  | ConnectionFailed _ => true
  | Responded r => match status_error r with Some _ => true | None => false end
  end.

(** The text of the failure, [str(e)] of the exception the library raises. *)
Definition failure_text (o : outcome) : string :=
  match o with
  | ConnectionFailed m => m
  | Responded r => match status_error r with Some m => m | None => "" end
  end.

(** What the asynchronous helper hands to its caller: the decoded body of a
    success answer, [None] in every other case. *)
Definition decoded (o : outcome) : pyval :=
  match o with
  | ConnectionFailed _ => PNone
  | Responded r =>
      match status_error r, resp_body r with
      | None, Json v => v
      | _, _ => PNone
      end
  end.

(** The reply of a synchronous tool that prefixes failures with [label] and
    renders a decoded body with [render]. *)
Definition sync_reply (label : string) (render : pyval -> result string) (o : outcome)
    : result string :=
  match o with
  | ConnectionFailed m => Returned (label ++ m)
  | Responded r =>
      match status_error r, resp_body r with
      | Some m, _ => Returned (label ++ m)
      | None, Undecodable m => Returned (label ++ m)
      | None, Overlong m => Raised (ValueError m)
      | None, Overdeep => Raised RecursionError
      | None, Json v => render v
      end
  end.

(** The rendering functions raise no library error of their own. *)
Definition own_errors_only (r : result string) : Prop :=
  forall m, r <> Raised (RequestException m).

(** The marker a caller can test for: the string begins with [p]. *)
Fixpoint startswith (p s : string) : bool :=
  match p, s with
  | EmptyString, _ => true
  | String a p', String b s' => Ascii.eqb a b && startswith p' s'
  | String _ _, EmptyString => false
  end.

(** How a field read with [.get(k, default)] appears in the output. *)
Definition field (d : dict) (k : string) (default : pyval) : string :=
  str (dict_get d k default).

(** The nine fields of the user summary, one line each but for the first,
    which carries name and login. *)
Definition user_lines (d : dict) : list string :=
  [ "User: " ++ field d "name" (PStr "N/A") ++ " (@" ++ field d "login" PNone ++ ")";
    "Bio: " ++ field d "bio" (PStr "N/A");
    "Public Repos: " ++ field d "public_repos" (PInt 0);
    "Followers: " ++ field d "followers" (PInt 0);
    "Following: " ++ field d "following" (PInt 0);
    "Location: " ++ field d "location" (PStr "N/A");
    "Company: " ++ field d "company" (PStr "N/A");
    "Created: " ++ field d "created_at" (PStr "N/A") ].

(** The lines of the other three summaries. *)
Definition created_repo_lines (d : dict) : list string :=
  [ "Repository created successfully!";
    "Name: " ++ field d "full_name" PNone;
    "URL: " ++ field d "html_url" PNone;
    "Description: " ++ field d "description" (PStr "N/A");
    "Private: " ++ field d "private" (PBool false) ].

Definition created_pr_lines (d : dict) : list string :=
  [ "Pull Request created successfully!";
    "Title: " ++ field d "title" PNone;
    "PR #: " ++ field d "number" PNone;
    "URL: " ++ field d "html_url" PNone;
    "State: " ++ field d "state" PNone ].

Definition merged_lines (pull_number : Z) (d : dict) : list string :=
  [ "Pull Request #" ++ str_int pull_number ++ " merged successfully!";
    "Message: " ++ field d "message" PNone;
    "SHA: " ++ field d "sha" PNone ].

(** One entry of the repository listing. *)
Definition repo_entry (d : dict) : string :=
  "- " ++ field d "full_name" PNone ++ ": " ++
  field d "description" (PStr "No description") ++
  " (" ++ field d "html_url" PNone ++ ")".

(** The note closing a truncated listing. *)
Definition showing_note (n : nat) : string :=
  nl ++ nl ++ "(Showing 10 of " ++ str_int (Z.of_nat n) ++ " repositories)".

(** The world used in the examples: no credential, a remote side that
    answers [o], nothing sent yet. *)
Definition world_answering (o : outcome) : world := mk_world None (fun _ _ => o) [].

(** A text [rstrip] leaves as it is, and that is not empty. *)
Definition kept (t : string) : Prop := rstrip t = t /\ t <> "".

(** ** The remote tools as one family *)

Inductive variant : Type := Synchronous | Asynchronous.

(** One invocation of a tool that calls GitHub, with its arguments. *)
Inductive call : Type :=
| UserInfo (username : string)
| CreateRepository (name description : string) (private : bool)
| DeleteRepository (owner repo : string)
| CreatePullRequest (owner repo title head base body : string)
| MergePullRequest (owner repo : string) (pull_number : Z) (commit_message : string)
| ListRepositories (username : string).

(** The function of the chosen file that serves the invocation. *)
Definition run (v : variant) (c : call) (w : world) : result string * world :=
  match v, c with
  | Synchronous, UserInfo username => Sync.get_user_info w username
  | Synchronous, CreateRepository name description private =>
      Sync.create_repository w name description private
  | Synchronous, DeleteRepository owner repo => Sync.delete_repository w owner repo
  | Synchronous, CreatePullRequest owner repo title head base body =>
      Sync.create_pull_request w owner repo title head base body
  | Synchronous, MergePullRequest owner repo pull_number commit_message =>
      Sync.merge_pull_request w owner repo pull_number commit_message
  | Synchronous, ListRepositories username => Sync.list_repositories w username
  | Asynchronous, UserInfo username => Async.github_user_info w username
  | Asynchronous, CreateRepository name description private =>
      Async.create_repository w name description private
  | Asynchronous, DeleteRepository owner repo => Async.delete_repository w owner repo
  | Asynchronous, CreatePullRequest owner repo title head base body =>
      Async.create_pull_request w owner repo title head base body
  | Asynchronous, MergePullRequest owner repo pull_number commit_message =>
      Async.merge_pull_request w owner repo pull_number commit_message
  | Asynchronous, ListRepositories username => Async.list_repositories w username
  end.

(** The endpoint table: HTTP method, path under the API root, JSON body. *)
Definition method_of (c : call) : string :=
  match c with
  | UserInfo _ | ListRepositories _ => "GET"
  | CreateRepository _ _ _ | CreatePullRequest _ _ _ _ _ _ => "POST"
  | DeleteRepository _ _ => "DELETE"
  | MergePullRequest _ _ _ _ => "PUT"
  end.

Definition path_of (c : call) : string :=
  match c with
  | UserInfo username => "/users/" ++ username
  | CreateRepository _ _ _ => "/user/repos"
  | DeleteRepository owner repo => "/repos/" ++ owner ++ "/" ++ repo
  | CreatePullRequest owner repo _ _ _ _ => "/repos/" ++ owner ++ "/" ++ repo ++ "/pulls"
  | MergePullRequest owner repo pull_number _ =>
      "/repos/" ++ owner ++ "/" ++ repo ++ "/pulls/" ++ str_int pull_number ++ "/merge"
  | ListRepositories username =>
      if username =? "" then "/user/repos" else "/users/" ++ username ++ "/repos"
  end.

Definition body_of (c : call) : option dict :=
  match c with
  | UserInfo _ | ListRepositories _ | DeleteRepository _ _ => None
  | CreateRepository name description private =>
      Some [("name", PStr name); ("description", PStr description);
            ("private", PBool private)]
  | CreatePullRequest _ _ title head base body =>
      Some [("title", PStr title); ("head", PStr head); ("base", PStr base);
            ("body", PStr body)]
  | MergePullRequest _ _ _ commit_message =>
      Some (if commit_message =? "" then []
            else [("commit_message", PStr commit_message)])
  end.

(** The credential as a header value, when there is a usable one. *)
Definition authorization (v : variant) (w : world) : option string :=
  match GITHUB_PAT w with
  | Some t =>
      if t =? "" then None
      else Some (match v with Synchronous => "token " | Asynchronous => "Bearer " end ++ t)
  | None => None
  end.

Definition headers_of (v : variant) (w : world) : list (string * string) :=
  (match v with
   | Synchronous => []
   | Asynchronous =>
       [("User-Agent", "github-mcp-client/1.0"); ("Accept", "application/vnd.github+json")]
   end ++
   match authorization v w with
   | Some a => [("Authorization", a)]
   | None => []
   end)%list.

Definition timeout_of (v : variant) : option Z :=
  match v with Synchronous => None | Asynchronous => Some 30%Z end.

(** The request the table prescribes for an invocation. *)
Definition expected_request (v : variant) (w : world) (c : call) : request :=
  mk_request (method_of c) ("https://api.github.com" ++ path_of c) (headers_of v w)
    (body_of c) (timeout_of v).

(** The value of a header, by name. *)
Fixpoint header (name : string) (hs : list (string * string)) : option string :=
  match hs with
  | [] => None
  | (k, x) :: hs' => if k =? name then Some x else header name hs'
  end.

(** The label a synchronous tool puts before the text of a failure. *)
Definition sync_label (c : call) : string :=
  match c with
  | UserInfo _ => "Error fetching user info: "
  | CreateRepository _ _ _ => "Error creating repository: "
  | DeleteRepository _ _ => "Error deleting repository: "
  | CreatePullRequest _ _ _ _ _ _ => "Error creating pull request: "
  | MergePullRequest _ _ _ _ => "Error merging pull request: "
  | ListRepositories _ => "Error listing repositories: "
  end.

(** What an asynchronous tool returns when its helper hands it [None]. *)
Definition async_on_none (c : call) : string :=
  match c with
  | UserInfo _ => "Error fetching user info."
  | CreateRepository _ _ _ => "Error creating repository."
  | DeleteRepository owner repo =>
      "Repository " ++ owner ++ "/" ++ repo ++ " was deleted successfully!"
  | CreatePullRequest _ _ _ _ _ _ => "Error creating pull request."
  | MergePullRequest _ _ _ _ => "Error merging pull request."
  | ListRepositories _ => "No repositories found or error occurred."
  end.

(** The tools that format a JSON object. *)
Definition reads_object (c : call) : bool :=
  match c with
  | DeleteRepository _ _ | ListRepositories _ => false
  | _ => true
  end.

Definition reads_body (c : call) : bool :=
  match c with
  | DeleteRepository _ _ => false
  | _ => true
  end.

Definition is_dict (v : pyval) : bool :=
  match v with PDict _ => true | _ => false end.

(** An answer whose status the library accepts, with body [b]. *)
Definition accepted (b : body) : outcome := Responded (mk_response None b).



(** ** Answers on the wire *)

(** An HTTP answer before a client library has looked at it: the numeric
    status, the text the library gives its status error should it raise
    one, and the body. *)
Record answer : Type := mk_answer {
  status_code : Z;
  status_text : string;
  answer_body : body
}.

(** What comes back for a request: nothing, with the text of the transport
    exception, or an answer. *)
Inductive exchange : Type :=
| NoAnswer (msg : string)
| Answered (a : answer).

(** The statuses on which [raise_for_status()] raises: in [requests], which
    the synchronous file uses, the client and server errors 400 to 599; in
    [httpx], which the asynchronous file uses, every status outside the
    success range 200 to 299. *)
Definition raises_for_status (v : variant) (code : Z) : bool :=
  match v with
  | Synchronous => (400 <=? code)%Z && (code <? 600)%Z
  | Asynchronous => negb ((200 <=? code)%Z && (code <=? 299)%Z)
  end.

(** The exchange as the library of the file reports it to the tool. *)
Definition seen_by (v : variant) (x : exchange) : outcome :=
  match x with
  | NoAnswer m => ConnectionFailed m
  | Answered a =>
      Responded
        (mk_response
           (if raises_for_status v (status_code a) then Some (status_text a) else None)
           (answer_body a))
  end.

(** The exchanges that make the library raise before the body is looked
    at: a transport exception, or a status [raise_for_status()] rejects. *)
Definition rejected_by (v : variant) (x : exchange) : bool :=
  match x with
  | NoAnswer _ => true
  | Answered a => raises_for_status v (status_code a)
  end.

(** The body of an exchange, when there is an answer. *)
Definition body_of_exchange (x : exchange) : option body :=
  match x with
  | NoAnswer _ => None
  | Answered a => Some (answer_body a)
  end.

(** ** The start-up block of [github_server.py] *)

(** [sub in s] for two [str]. *)
Fixpoint contains (sub s : string) : bool :=
  startswith sub s ||
  match s with
  | EmptyString => false
  | String _ s' => contains sub s'
  end.

(** The keyword arguments of a [mcp.serve(...)] call. *)
Record serve_call : Type := mk_serve {
  serve_host : option string;
  serve_port : option Z
}.

(** Lines 173-182, given [sys.argv].  [FastMCP] is not part of the
    repository: [has_serve] says whether the [mcp] object has an attribute
    [serve].  The block prints its line, tests the arguments, and then
    looks the attribute up: without it the lookup raises [AttributeError],
    with it the call is made with the arguments recorded here. *)
Definition main (has_serve : bool) (argv : list string)
    : list string * result serve_call :=
  let printed := ["Starting GitHub MCP server..."] in
  let mcp_serve (call : serve_call) : result serve_call :=
    if has_serve then Returned call else Raised AttributeError in
  if contains "mcp dev" (join " " argv)
  then (printed, mcp_serve (mk_serve (Some "127.0.0.1") (Some 5000%Z)))
  else (printed, mcp_serve (mk_serve None None)).

(** ** Strings: append and strip *)

Lemma append_assoc (a b c : string) : (a ++ b) ++ c = a ++ (b ++ c).
Proof. induction a as [|x a IH]; simpl; [reflexivity | now rewrite IH]. Qed.

Lemma append_empty_r (a : string) : a ++ "" = a.
Proof. induction a as [|x a IH]; simpl; [reflexivity | now rewrite IH]. Qed.

Lemma rstrip_cons_solid (c : ascii) (s : string) :
  isspace c = false -> rstrip (String c s) = String c (rstrip s).
Proof. intros H. simpl. now rewrite H. Qed.

(** Stripping on the right looks at the right part first. *)
Lemma rstrip_app (s t : string) :
  rstrip (s ++ t) = if rstrip t =? "" then rstrip s else s ++ rstrip t.
Proof.
  induction s as [|c s IH]; simpl.
  - destruct (String.eqb_spec (rstrip t) "") as [E|E]; [exact E | reflexivity].
  - rewrite IH. destruct (String.eqb_spec (rstrip t) "") as [E|E].
    + reflexivity.
    + destruct (String.eqb_spec (s ++ rstrip t) "") as [E'|E'].
      * destruct s; simpl in E'; [contradiction | discriminate].
      * now rewrite andb_false_r.
Qed.

Lemma rstrip_app_blank (s t : string) : rstrip t = "" -> rstrip (s ++ t) = rstrip s.
Proof. intros H. now rewrite rstrip_app, H. Qed.

Lemma rstrip_app_solid (s t : string) (c : ascii) :
  isspace c = false -> rstrip (s ++ String c t) = s ++ String c (rstrip t).
Proof.
  intros H. rewrite rstrip_app, rstrip_cons_solid by exact H. reflexivity.
Qed.

Lemma startswith_app (p s : string) : startswith p (p ++ s) = true.
Proof.
  induction p as [|c p IH]; simpl; [reflexivity |].
  now rewrite Ascii.eqb_refl, IH.
Qed.

Lemma strip_framed (s t : string) (c : ascii) :
  isspace c = false -> rstrip t = "" ->
  strip (String "010" (String c (s ++ t))) = rstrip (String c s).
Proof.
  intros Hc Ht. unfold strip. simpl lstrip. rewrite Hc.
  change (String c (s ++ t)) with (String c s ++ t).
  now apply rstrip_app_blank.
Qed.

(** ** The rendered texts *)

#[local] Arguments str : simpl never.
#[local] Arguments dict_get : simpl never.
#[local] Arguments str_int : simpl never.
#[local] Arguments strip : simpl never.
#[local] Arguments rstrip : simpl never.

(** Brings both sides of an equation between nested appends to one shape. *)
Ltac flatten_appends := repeat (simpl; rewrite ?append_assoc).

Ltac render_framed trailer :=
  unfold field; simpl;
  match goal with
  | |- Returned (strip (String _ (String ?c ?rest))) = Returned (rstrip (String ?c ?s)) =>
      replace rest with (s ++ trailer) by (flatten_appends; reflexivity);
      f_equal; apply strip_framed; reflexivity
  end.

Lemma sync_user_text (d : dict) :
  Sync.user_text (PDict d) = Returned (rstrip (join nl (user_lines d))).
Proof. unfold Sync.user_text, user_lines, nl. render_framed (String "010" "        "). Qed.

Lemma async_user_text (d : dict) :
  Async.user_text (PDict d) = Returned (rstrip (join nl (user_lines d))).
Proof. unfold Async.user_text, user_lines, nl. render_framed (String "010" ""). Qed.

Lemma sync_repo_text (d : dict) :
  Sync.repo_text (PDict d) = Returned (rstrip (join nl (created_repo_lines d))).
Proof. unfold Sync.repo_text, created_repo_lines, nl. render_framed (String "010" "        "). Qed.

Lemma async_repo_text (d : dict) :
  Async.repo_text (PDict d) = Returned (rstrip (join nl (created_repo_lines d))).
Proof. unfold Async.repo_text, created_repo_lines, nl. render_framed (String "010" ""). Qed.

Lemma sync_pr_text (d : dict) :
  Sync.pr_text (PDict d) = Returned (rstrip (join nl (created_pr_lines d))).
Proof. unfold Sync.pr_text, created_pr_lines, nl. render_framed (String "010" "        "). Qed.

Lemma async_pr_text (d : dict) :
  Async.pr_text (PDict d) = Returned (rstrip (join nl (created_pr_lines d))).
Proof. unfold Async.pr_text, created_pr_lines, nl. render_framed (String "010" ""). Qed.

Lemma sync_merge_text (n : Z) (d : dict) :
  Sync.merge_text n (PDict d) = Returned (rstrip (join nl (merged_lines n d))).
Proof. unfold Sync.merge_text, merged_lines, nl. render_framed (String "010" "        "). Qed.

Lemma async_merge_text (n : Z) (d : dict) :
  Async.merge_text n (PDict d) = Returned (rstrip (join nl (merged_lines n d))).
Proof. unfold Async.merge_text, merged_lines, nl. render_framed (String "010" ""). Qed.

Lemma sync_repo_lines (ds : list dict) :
  Sync.repo_lines (map PDict ds) = Returned (map repo_entry ds).
Proof.
  induction ds as [|d ds IH]; simpl; [reflexivity |].
  rewrite IH. reflexivity.
Qed.

Lemma async_repo_lines (ds : list dict) :
  Async.repo_lines (map PDict ds) = Returned (map repo_entry ds).
Proof.
  induction ds as [|d ds IH]; simpl; [reflexivity |].
  rewrite IH. reflexivity.
Qed.

(** ** Running a tool against a fixed answer *)

Lemma make_github_request_decoded (w : world) (o : outcome) (method endpoint : string)
    (payload : option dict) :
  answers w o -> fst (Async.make_github_request w method endpoint payload) = decoded o.
Proof.
  intros H. unfold Async.make_github_request, send. rewrite H. cbn [fst].
  destruct o as [m | [[m|] [m'|m'| |v]]]; reflexivity.
Qed.

Lemma except_own_errors (r : result string) (handler : string -> string) :
  own_errors_only r -> Sync.except_RequestException r handler = r.
Proof.
  intros H. destruct r as [s | [m | | | m' |]]; try reflexivity.
  now destruct (H m).
Qed.

Lemma sync_skeleton (label : string) (render : pyval -> result string) (o : outcome) :
  (forall v, own_errors_only (render v)) ->
  Sync.except_RequestException
    (response <- match o with
                 | ConnectionFailed m => Raised (RequestException m)
                 | Responded resp => Returned resp
                 end ;;
     _ <- raise_for_status response ;;
     v <- json response ;;
     render v)
    (fun e => label ++ e) = sync_reply label render o.
Proof.
  intros H. destruct o as [m | [[m|] [m'|m'| |v]]]; try reflexivity.
  unfold sync_reply. cbn. now apply except_own_errors.
Qed.

Lemma get_own_errors (v : pyval) (k : string) (p : pyval) (f : pyval -> result string) :
  (forall x, own_errors_only (f x)) -> own_errors_only (x <- get v k p ;; f x).
Proof. intros H. destruct v; cbn; try (intros m; discriminate). apply H. Qed.

Lemma returned_own_errors (s : string) : own_errors_only (Returned s).
Proof. intros m; discriminate. Qed.

Ltac own_errors :=
  repeat (apply get_own_errors; intros ?); apply returned_own_errors.

Lemma sync_user_text_own (v : pyval) : own_errors_only (Sync.user_text v).
Proof. unfold Sync.user_text. own_errors. Qed.

Lemma sync_repo_text_own (v : pyval) : own_errors_only (Sync.repo_text v).
Proof. unfold Sync.repo_text. own_errors. Qed.

Lemma sync_pr_text_own (v : pyval) : own_errors_only (Sync.pr_text v).
Proof. unfold Sync.pr_text. own_errors. Qed.

Lemma sync_merge_text_own (n : Z) (v : pyval) : own_errors_only (Sync.merge_text n v).
Proof. unfold Sync.merge_text. own_errors. Qed.

Lemma sync_repo_lines_own (items : list pyval) (f : list string -> result string) :
  (forall x, own_errors_only (f x)) ->
  own_errors_only (repo_list <- Sync.repo_lines items ;; f repo_list).
Proof.
  revert f. induction items as [|repo rest IH]; intros f H; cbn [Sync.repo_lines bind].
  - apply H.
  - destruct repo; cbn; try (intros m; discriminate).
    destruct (Sync.repo_lines rest) as [l | e] eqn:E; cbn.
    + apply H.
    + exact (IH f H).
Qed.

Lemma sync_repos_text_own (v : pyval) : own_errors_only (Sync.repos_text v).
Proof.
  unfold Sync.repos_text. destruct (negb (truthy v)); [apply returned_own_errors |].
  destruct v; cbn [slice bind]; try (intros m; discriminate);
    apply sync_repo_lines_own; intros x; apply returned_own_errors.
Qed.

Ltac run_sync H lemma :=
  unfold Sync.requests_get, Sync.requests_post, Sync.requests_put, Sync.requests_delete, send;
  rewrite H; cbn [fst];
  apply sync_skeleton; intros ?; apply lemma.

Lemma sync_get_user_info_reply (w : world) (o : outcome) (username : string) :
  answers w o ->
  fst (Sync.get_user_info w username) =
  sync_reply "Error fetching user info: " Sync.user_text o.
Proof. intros H. unfold Sync.get_user_info. run_sync H sync_user_text_own. Qed.

Lemma sync_create_repository_reply (w : world) (o : outcome) (name description : string)
    (private : bool) :
  answers w o ->
  fst (Sync.create_repository w name description private) =
  sync_reply "Error creating repository: " Sync.repo_text o.
Proof. intros H. unfold Sync.create_repository. run_sync H sync_repo_text_own. Qed.

Lemma sync_create_pull_request_reply (w : world) (o : outcome)
    (owner repo title head base body : string) :
  answers w o ->
  fst (Sync.create_pull_request w owner repo title head base body) =
  sync_reply "Error creating pull request: " Sync.pr_text o.
Proof. intros H. unfold Sync.create_pull_request. run_sync H sync_pr_text_own. Qed.

Lemma sync_merge_pull_request_reply (w : world) (o : outcome) (owner repo : string)
    (pull_number : Z) (commit_message : string) :
  answers w o ->
  fst (Sync.merge_pull_request w owner repo pull_number commit_message) =
  sync_reply "Error merging pull request: " (Sync.merge_text pull_number) o.
Proof. intros H. unfold Sync.merge_pull_request. run_sync H sync_merge_text_own. Qed.

Lemma sync_list_repositories_reply (w : world) (o : outcome) (username : string) :
  answers w o ->
  fst (Sync.list_repositories w username) =
  sync_reply "Error listing repositories: " Sync.repos_text o.
Proof. intros H. unfold Sync.list_repositories. run_sync H sync_repos_text_own. Qed.

Lemma sync_delete_repository_reply (w : world) (o : outcome) (owner repo : string) :
  answers w o ->
  fst (Sync.delete_repository w owner repo) =
  Returned (if failed o
            then "Error deleting repository: " ++ failure_text o
            else "Repository " ++ owner ++ "/" ++ repo ++ " was deleted successfully!").
Proof.
  intros H. unfold Sync.delete_repository, Sync.requests_delete, send.
  rewrite H. cbn [fst]. destruct o as [m | [[m|] b]]; reflexivity.
Qed.

Lemma sync_reply_failed (label : string) (render : pyval -> result string) (o : outcome) :
  failed o = true -> sync_reply label render o = Returned (label ++ failure_text o).
Proof. destruct o as [m | [[m|] b]]; cbn; intros H; [reflexivity .. | discriminate]. Qed.

Lemma sync_reply_ok (label : string) (render : pyval -> result string) (v : pyval) :
  sync_reply label render (ok v) = render v.
Proof. reflexivity. Qed.

Ltac run_async H :=
  match goal with
  | |- context [Async.make_github_request ?w ?m ?e ?j] =>
      let E := fresh "E" in
      pose proof (make_github_request_decoded w _ m e j H) as E;
      destruct (Async.make_github_request w m e j) as [data w'];
      cbn [fst] in E |- *; subst data
  end.

Lemma async_github_user_info_reply (w : world) (o : outcome) (username : string) :
  answers w o ->
  fst (Async.github_user_info w username) =
  if truthy (decoded o) then Async.user_text (decoded o)
  else Returned "Error fetching user info.".
Proof.
  intros H. unfold Async.github_user_info. run_async H.
  now destruct (truthy (decoded o)).
Qed.

Lemma async_create_repository_reply (w : world) (o : outcome) (name description : string)
    (private : bool) :
  answers w o ->
  fst (Async.create_repository w name description private) =
  if truthy (decoded o) then Async.repo_text (decoded o)
  else Returned "Error creating repository.".
Proof.
  intros H. unfold Async.create_repository. run_async H.
  now destruct (truthy (decoded o)).
Qed.

Lemma async_create_pull_request_reply (w : world) (o : outcome)
    (owner repo title head base body : string) :
  answers w o ->
  fst (Async.create_pull_request w owner repo title head base body) =
  if truthy (decoded o) then Async.pr_text (decoded o)
  else Returned "Error creating pull request.".
Proof.
  intros H. unfold Async.create_pull_request. run_async H.
  now destruct (truthy (decoded o)).
Qed.

Lemma async_merge_pull_request_reply (w : world) (o : outcome) (owner repo : string)
    (pull_number : Z) (commit_message : string) :
  answers w o ->
  fst (Async.merge_pull_request w owner repo pull_number commit_message) =
  if truthy (decoded o) then Async.merge_text pull_number (decoded o)
  else Returned "Error merging pull request.".
Proof.
  intros H. unfold Async.merge_pull_request. run_async H.
  now destruct (truthy (decoded o)).
Qed.

Lemma async_delete_repository_reply (w : world) (o : outcome) (owner repo : string) :
  answers w o ->
  fst (Async.delete_repository w owner repo) =
  match decoded o with
  | PNone => Returned ("Repository " ++ owner ++ "/" ++ repo ++ " was deleted successfully!")
  | _ => Returned "Error deleting repository."
  end.
Proof. intros H. unfold Async.delete_repository. run_async H. reflexivity. Qed.

Lemma async_list_repositories_reply (w : world) (o : outcome) (username : string) :
  answers w o ->
  fst (Async.list_repositories w username) =
  if truthy (decoded o)
  then items <- slice (decoded o) 10 ;;
       repo_list <- Async.repo_lines items ;;
       Returned ("Repositories:" ++ nl ++ join nl repo_list ++
                 (if (10 <? len (decoded o))%nat then showing_note (len (decoded o)) else ""))
  else Returned "No repositories found or error occurred.".
Proof.
  intros H. unfold Async.list_repositories. run_async H.
  now destruct (truthy (decoded o)).
Qed.

Lemma decoded_failed (o : outcome) : failed o = true -> decoded o = PNone.
Proof. destruct o as [m | [[m|] b]]; cbn; intros H; [reflexivity .. | discriminate]. Qed.

Lemma decoded_ok (v : pyval) : decoded (ok v) = v.
Proof. reflexivity. Qed.

Lemma answers_world_answering (o : outcome) : answers (world_answering o) o.
Proof. intros h r. reflexivity. Qed.

Lemma field_present (d : dict) (k : string) (p v : pyval) :
  lookup k d = Some v -> field d k p = str v.
Proof. intros H. unfold field, dict_get. now rewrite H. Qed.

Lemma field_absent (d : dict) (k : string) (p : pyval) :
  lookup k d = None -> field d k p = str p.
Proof. intros H. unfold field, dict_get. now rewrite H. Qed.

Lemma kept_app (a t : string) : kept t -> kept (a ++ t).
Proof.
  intros [H1 H2]. split.
  - rewrite rstrip_app, H1. apply String.eqb_neq in H2. now rewrite H2.
  - destruct a; simpl; [exact H2 | discriminate].
Qed.

Lemma kept_rstrip (t : string) : kept t -> rstrip t = t.
Proof. now intros [H _]. Qed.

Ltac kept_literal := split; [reflexivity | discriminate].

(** * The claims *)

(** ** C1: what [delete_repository] reports *)

(** C1, evaluated on the code.  When the DELETE call fails (no answer, or a
    status that [raise_for_status()] rejects) the synchronous
    [delete_repository] returns its error string, and the asynchronous
    [delete_repository] returns the confirmation naming owner/repo: the
    helper's [None] for a failure is what its caller reads as success. *)
Theorem C1_async_delete_confirms_a_failed_call (w : world) (o : outcome)
    (owner repo : string) :
  answers w o -> failed o = true ->
  fst (Sync.delete_repository w owner repo) =
    Returned ("Error deleting repository: " ++ failure_text o) /\
  fst (Async.delete_repository w owner repo) =
    Returned ("Repository " ++ owner ++ "/" ++ repo ++ " was deleted successfully!").
Proof.
  intros H F. split.
  - rewrite (sync_delete_repository_reply w o) by exact H. now rewrite F.
  - rewrite (async_delete_repository_reply w o) by exact H.
    now rewrite (decoded_failed o F).
Qed.

Lemma C1_failed_delete_example :
  fst (Sync.delete_repository (world_answering (ConnectionFailed "timed out")) "octo" "demo") =
    Returned "Error deleting repository: timed out" /\
  fst (Async.delete_repository (world_answering (ConnectionFailed "timed out")) "octo" "demo") =
    Returned "Repository octo/demo was deleted successfully!".
Proof.
  apply (C1_async_delete_confirms_a_failed_call
           (world_answering (ConnectionFailed "timed out")) (ConnectionFailed "timed out")
           "octo" "demo").
  - intros h r. reflexivity.
  - reflexivity.
Defined.

(** In the synchronous variant the table holds as written. *)
Lemma sync_delete_repository_contract (w : world) (o : outcome) (owner repo : string) :
  answers w o ->
  (failed o = true ->
   fst (Sync.delete_repository w owner repo) =
     Returned ("Error deleting repository: " ++ failure_text o)) /\
  (failed o = false ->
   fst (Sync.delete_repository w owner repo) =
     Returned ("Repository " ++ owner ++ "/" ++ repo ++ " was deleted successfully!")).
Proof.
  intros H. rewrite (sync_delete_repository_reply w o) by exact H.
  split; intros F; now rewrite F.
Qed.

(** A success answer that carries a JSON body is, in the asynchronous
    variant, reported as an error. *)
Lemma async_delete_repository_rejects_a_body (w : world) (v : pyval) (owner repo : string) :
  answers w (ok v) -> v <> PNone ->
  fst (Async.delete_repository w owner repo) = Returned "Error deleting repository.".
Proof.
  intros H N. rewrite (async_delete_repository_reply w (ok v)) by exact H.
  rewrite decoded_ok. destruct v; try reflexivity. now destruct N.
Qed.

(** ** C2: the empty listing *)

Lemma sync_repos_text_shapes (v : pyval) :
  (truthy v = false /\ Sync.repos_text v = Returned "No repositories found.") \/
  (truthy v = true /\
   ((exists e, Sync.repos_text v = Raised e) \/
    (exists body, Sync.repos_text v = Returned ("Repositories:" ++ body)))).
Proof.
  unfold Sync.repos_text. destruct (truthy v); cbn [negb]; [right | left; auto].
  split; [reflexivity |].
  destruct (slice v 10) as [items | e]; cbn [bind]; [| left; eauto].
  destruct (Sync.repo_lines items) as [l | e]; cbn [bind]; [| left; eauto].
  right. eexists. reflexivity.
Qed.

Lemma async_listing_shapes (o : outcome) (w : world) (username : string) :
  answers w o ->
  (truthy (decoded o) = false /\
   fst (Async.list_repositories w username) =
     Returned "No repositories found or error occurred.") \/
  (truthy (decoded o) = true /\
   ((exists e, fst (Async.list_repositories w username) = Raised e) \/
    (exists body,
       fst (Async.list_repositories w username) = Returned ("Repositories:" ++ body)))).
Proof.
  intros H. rewrite (async_list_repositories_reply w o) by exact H.
  destruct (truthy (decoded o)); [right | left; auto].
  split; [reflexivity |].
  destruct (slice (decoded o) 10) as [items | e]; cbn [bind]; [| left; eauto].
  destruct (Async.repo_lines items) as [l | e]; cbn [bind]; [| left; eauto].
  right. eexists. reflexivity.
Qed.

(** C2 fails as stated: in the asynchronous variant a call that got no
    answer returns the very string an empty collection returns. *)
Lemma C2_async_failure_reads_as_empty :
  fst (Async.list_repositories (world_answering (ConnectionFailed "timed out")) "octo") =
    Returned "No repositories found or error occurred." /\
  fst (Async.list_repositories (world_answering (ok (PList []))) "octo") =
    Returned "No repositories found or error occurred.".
Proof. split; reflexivity. Qed.

(** C2, amended.  In the synchronous variant [list_repositories] returns
    "No repositories found." if and only if the call succeeded with an empty
    body (an empty collection, or another value Python counts as false), and
    a failed call returns "Error listing repositories: " followed by the
    failure text.  In the asynchronous variant the string
    "No repositories found or error occurred." is returned in every case
    but a success with a non-empty body, failed calls included. *)
Theorem C2_empty_listing_by_variant (w : world) (o : outcome) (username : string) :
  answers w o ->
  (fst (Sync.list_repositories w username) = Returned "No repositories found." <->
   exists v, o = ok v /\ truthy v = false) /\
  (failed o = true ->
   fst (Sync.list_repositories w username) =
     Returned ("Error listing repositories: " ++ failure_text o)) /\
  (fst (Async.list_repositories w username) =
     Returned "No repositories found or error occurred." <->
   forall v, o = ok v -> truthy v = false).
Proof.
  intros H. split; [| split].
  - rewrite (sync_list_repositories_reply w o) by exact H. split.
    + destruct o as [m | [[m|] [m'|m'| |v]]]; cbn; try discriminate.
      intros E. exists v. split; [reflexivity |].
      destruct (sync_repos_text_shapes v) as [[T _] | [_ [[e R] | [b R]]]];
        [exact T | rewrite R in E; discriminate ..].
    + intros [v [-> T]]. rewrite sync_reply_ok. unfold Sync.repos_text. now rewrite T.
  - intros F. rewrite (sync_list_repositories_reply w o) by exact H.
    now apply sync_reply_failed.
  - destruct (async_listing_shapes o w username H) as [[T R] | [T [[e R] | [b R]]]].
    + split; [| intros _; exact R].
      intros _ v ->. exact T.
    + split; [rewrite R; discriminate |].
      intros A. destruct o as [m | [[m|] [m'|m'| |v]]]; try discriminate.
      specialize (A v eq_refl). cbn in T. congruence.
    + split; [rewrite R; discriminate |].
      intros A. destruct o as [m | [[m|] [m'|m'| |v]]]; try discriminate.
      specialize (A v eq_refl). cbn in T. congruence.
Qed.

Lemma C2_empty_listing_example :
  fst (Sync.list_repositories (world_answering (ConnectionFailed "timed out")) "octo") =
    Returned "Error listing repositories: timed out" /\
  fst (Async.list_repositories (world_answering (ConnectionFailed "timed out")) "octo") =
    Returned "No repositories found or error occurred.".
Proof.
  destruct (C2_empty_listing_by_variant
              (world_answering (ConnectionFailed "timed out")) (ConnectionFailed "timed out")
              "octo") as [_ [F A]].
  - intros h r. reflexivity.
  - split.
    + apply F. reflexivity.
    + apply A. intros v E. discriminate E.
Defined.

(** ** C3: telling a failure from a success *)

Lemma append_inj_l (a x y : string) : a ++ x = a ++ y -> x = y.
Proof.
  induction a as [|c a IH]; cbn; intros E; [exact E |].
  injection E as E. now apply IH.
Qed.

Lemma sync_run_failed (c : call) (w : world) (o : outcome) :
  answers w o -> failed o = true ->
  fst (run Synchronous c w) = Returned (sync_label c ++ failure_text o).
Proof.
  intros H F. destruct c; cbn [run sync_label].
  - rewrite (sync_get_user_info_reply w o) by exact H. now apply sync_reply_failed.
  - rewrite (sync_create_repository_reply w o) by exact H. now apply sync_reply_failed.
  - rewrite (sync_delete_repository_reply w o) by exact H. now rewrite F.
  - rewrite (sync_create_pull_request_reply w o) by exact H. now apply sync_reply_failed.
  - rewrite (sync_merge_pull_request_reply w o) by exact H. now apply sync_reply_failed.
  - rewrite (sync_list_repositories_reply w o) by exact H. now apply sync_reply_failed.
Qed.

Lemma async_run_none (c : call) (w : world) (o : outcome) :
  answers w o -> decoded o = PNone ->
  fst (run Asynchronous c w) = Returned (async_on_none c).
Proof.
  intros H D. destruct c; cbn [run async_on_none].
  - rewrite (async_github_user_info_reply w o) by exact H. now rewrite D.
  - rewrite (async_create_repository_reply w o) by exact H. now rewrite D.
  - rewrite (async_delete_repository_reply w o) by exact H. now rewrite D.
  - rewrite (async_create_pull_request_reply w o) by exact H. now rewrite D.
  - rewrite (async_merge_pull_request_reply w o) by exact H. now rewrite D.
  - rewrite (async_list_repositories_reply w o) by exact H. now rewrite D.
Qed.

(** A summary never begins with the marker: its first character is that of
    its first literal line. *)
Ltac summary_unmarked text_lemma lines :=
  let v := fresh "v" in
  let s := fresh "s" in
  let E := fresh "E" in
  intros v s E; destruct v; try discriminate E;
  rewrite text_lemma in E; injection E as <-;
  unfold lines; cbn [join]; simpl;
  rewrite ?rstrip_cons_solid by reflexivity; reflexivity.

Lemma sync_user_text_unmarked :
  forall v s, Sync.user_text v = Returned s -> startswith "Error" s = false.
Proof. summary_unmarked sync_user_text user_lines. Qed.

Lemma async_user_text_unmarked :
  forall v s, Async.user_text v = Returned s -> startswith "Error" s = false.
Proof. summary_unmarked async_user_text user_lines. Qed.

Lemma sync_repo_text_unmarked :
  forall v s, Sync.repo_text v = Returned s -> startswith "Error" s = false.
Proof. summary_unmarked sync_repo_text created_repo_lines. Qed.

Lemma async_repo_text_unmarked :
  forall v s, Async.repo_text v = Returned s -> startswith "Error" s = false.
Proof. summary_unmarked async_repo_text created_repo_lines. Qed.

Lemma sync_pr_text_unmarked :
  forall v s, Sync.pr_text v = Returned s -> startswith "Error" s = false.
Proof. summary_unmarked sync_pr_text created_pr_lines. Qed.

Lemma async_pr_text_unmarked :
  forall v s, Async.pr_text v = Returned s -> startswith "Error" s = false.
Proof. summary_unmarked async_pr_text created_pr_lines. Qed.

Lemma sync_merge_text_unmarked (n : Z) :
  forall v s, Sync.merge_text n v = Returned s -> startswith "Error" s = false.
Proof. summary_unmarked sync_merge_text merged_lines. Qed.

Lemma async_merge_text_unmarked (n : Z) :
  forall v s, Async.merge_text n v = Returned s -> startswith "Error" s = false.
Proof. summary_unmarked async_merge_text merged_lines. Qed.

Lemma sync_repos_text_unmarked :
  forall v s, Sync.repos_text v = Returned s -> startswith "Error" s = false.
Proof.
  intros v s E.
  destruct (sync_repos_text_shapes v) as [[_ R] | [_ [[e R] | [b R]]]];
    rewrite R in E; try discriminate E; injection E as <-; reflexivity.
Qed.

Lemma failed_seen_by (v : variant) (x : exchange) : failed (seen_by v x) = rejected_by v x.
Proof. destruct x as [m | a]; cbn; [reflexivity |]. now destruct (raises_for_status v _). Qed.

Lemma seen_by_accepted (v : variant) (x : exchange) :
  rejected_by v x = false ->
  exists b, body_of_exchange x = Some b /\ seen_by v x = accepted b.
Proof.
  destruct x as [m | a]; cbn; [discriminate |]. intros R. rewrite R.
  exists (answer_body a). split; reflexivity.
Qed.

Lemma sync_label_marked (c : call) (m : string) : startswith "Error" (sync_label c ++ m) = true.
Proof. destruct c; reflexivity. Qed.

(** In the synchronous file, for an answer whose status is accepted, the
    marker appears exactly when the tool reads the body and the body is
    malformed JSON. *)
Lemma sync_accepted_marker (c : call) (w : world) (b : body) (s : string) :
  answers w (accepted b) -> fst (run Synchronous c w) = Returned s ->
  (startswith "Error" s = true <-> reads_body c = true /\ exists m, b = Undecodable m).
Proof.
  intros H E.
  assert (J : forall (label : string) (render : pyval -> result string),
            (forall m, startswith "Error" (label ++ m) = true) ->
            (forall v t, render v = Returned t -> startswith "Error" t = false) ->
            sync_reply label render (accepted b) = Returned s ->
            (startswith "Error" s = true <-> true = true /\ exists m, b = Undecodable m)).
  { intros label render L U R. destruct b as [m | m | | v]; cbn in R; try discriminate R.
    - injection R as <-. rewrite L. split; [intros _; split; eauto | reflexivity].
    - rewrite (U v s R). split; [discriminate | intros [_ [m M]]; discriminate M]. }
  destruct c; cbn [run reads_body] in *.
  - rewrite (sync_get_user_info_reply w _ _ H) in E.
    apply (fun L => J _ _ L sync_user_text_unmarked E); intros m; reflexivity.
  - rewrite (sync_create_repository_reply w _ _ _ _ H) in E.
    apply (fun L => J _ _ L sync_repo_text_unmarked E); intros m; reflexivity.
  - rewrite (sync_delete_repository_reply w _ _ _ H) in E. cbn in E. injection E as <-.
    split; [discriminate | intros [F _]; discriminate F].
  - rewrite (sync_create_pull_request_reply w _ _ _ _ _ _ _ H) in E.
    apply (fun L => J _ _ L sync_pr_text_unmarked E); intros m; reflexivity.
  - rewrite (sync_merge_pull_request_reply w _ _ _ _ _ H) in E.
    apply (fun L => J _ _ L (sync_merge_text_unmarked _) E); intros m; reflexivity.
  - rewrite (sync_list_repositories_reply w _ _ H) in E.
    apply (fun L => J _ _ L sync_repos_text_unmarked E); intros m; reflexivity.
Qed.

(** In the asynchronous file, for an answer whose status is accepted, the
    four summary tools leave the marker out exactly when the body decodes to
    a value that counts as true. *)
Lemma async_accepted_marker (c : call) (w : world) (b : body) (s : string) :
  reads_object c = true -> answers w (accepted b) ->
  fst (run Asynchronous c w) = Returned s ->
  (startswith "Error" s = false <-> exists v, b = Json v /\ truthy v = true).
Proof.
  intros R H E.
  assert (J : forall (label : string) (render : pyval -> result string),
            startswith "Error" label = true ->
            (forall v t, render v = Returned t -> startswith "Error" t = false) ->
            (if truthy (decoded (accepted b)) then render (decoded (accepted b))
             else Returned label) = Returned s ->
            (startswith "Error" s = false <-> exists v, b = Json v /\ truthy v = true)).
  { intros label render L U A.
    destruct b as [m | m | | v]; cbn in A;
      try (injection A as <-; rewrite L;
           split; [discriminate | intros [v [V _]]; discriminate V]).
    destruct (truthy v) eqn:T.
    - rewrite (U v s A). split; [intros _; eauto | reflexivity].
    - injection A as <-. rewrite L. split; [discriminate |].
      intros [v' [V T']]. injection V as <-. congruence. }
  destruct c; try discriminate R; cbn [run] in E.
  - rewrite (async_github_user_info_reply w _ _ H) in E.
    apply (fun L => J _ _ L async_user_text_unmarked E); reflexivity.
  - rewrite (async_create_repository_reply w _ _ _ _ H) in E.
    apply (fun L => J _ _ L async_repo_text_unmarked E); reflexivity.
  - rewrite (async_create_pull_request_reply w _ _ _ _ _ _ _ H) in E.
    apply (fun L => J _ _ L async_pr_text_unmarked E); reflexivity.
  - rewrite (async_merge_pull_request_reply w _ _ _ _ _ H) in E.
    apply (fun L => J _ _ L (async_merge_text_unmarked _) E); reflexivity.
Qed.

(** C3 fails as stated, in both files.  In the asynchronous one a listing
    call rejected with 404 returns exactly the string a successful call with
    an empty collection returns, and that string does not begin with the
    marker.  In the synchronous one a status outside 200 to 299 that is not
    an error status, such as 304, is not raised by the library, and the
    tool answers it like a success. *)
Lemma C3_async_listing_failure_looks_like_success :
  (exists s,
     fst (Async.list_repositories
            (world_answering
               (seen_by Asynchronous
                  (Answered (mk_answer 404 "404 Not Found"
                               (Json (PDict [("message", PStr "Not Found")]))))))
            "") = Returned s /\
     fst (Async.list_repositories
            (world_answering
               (seen_by Asynchronous (Answered (mk_answer 200 "" (Json (PList []))))))
            "") = Returned s /\
     startswith "Error" s = false) /\
  fst (Sync.delete_repository
         (world_answering
            (seen_by Synchronous (Answered (mk_answer 304 "304 Not Modified" (Undecodable "")))))
         "octo" "demo") =
    Returned "Repository octo/demo was deleted successfully!".
Proof. split; [eexists; repeat split |]; reflexivity. Qed.

(** C3, amended.  Synchronous file: when the request raises a transport
    exception or is answered with a status from 400 to 599, the statuses on
    which [raise_for_status()] of [requests] raises, every tool but
    [hello_world] returns a string that begins with "Error".  For an answer
    with any other status, a string the tool returns begins with "Error"
    exactly when the tool reads the body and the body is malformed JSON; so
    no string returned for a decoded body, and none returned by
    [delete_repository], begins with it.  Asynchronous file: on a transport
    exception and on every status outside 200 to 299, [github_user_info],
    [create_repository], [create_pull_request] and [merge_pull_request]
    return a string that begins with "Error", and for a 2xx answer a string
    they return is free of the marker exactly when the body decodes to a
    value that counts as true; [list_repositories] returns
    "No repositories found or error occurred.", which is also its string for
    an empty collection. *)
Theorem C3_failures_marked_by_variant (c : call) (w : world) (x : exchange) :
  (answers w (seen_by Synchronous x) ->
   (rejected_by Synchronous x = true ->
    exists s, fst (run Synchronous c w) = Returned s /\ startswith "Error" s = true) /\
   (rejected_by Synchronous x = false ->
    forall s, fst (run Synchronous c w) = Returned s ->
      (startswith "Error" s = true <->
       reads_body c = true /\ exists m, body_of_exchange x = Some (Undecodable m)))) /\
  (answers w (seen_by Asynchronous x) ->
   (rejected_by Asynchronous x = true ->
    (reads_object c = true ->
     exists s, fst (run Asynchronous c w) = Returned s /\ startswith "Error" s = true) /\
    (forall username, c = ListRepositories username ->
     fst (run Asynchronous c w) = Returned "No repositories found or error occurred.")) /\
   (rejected_by Asynchronous x = false -> reads_object c = true ->
    forall s, fst (run Asynchronous c w) = Returned s ->
      (startswith "Error" s = false <->
       exists v, body_of_exchange x = Some (Json v) /\ truthy v = true))).
Proof.
  split; intros H; split.
  - intros R. rewrite <- failed_seen_by in R. eexists. split.
    + apply (sync_run_failed c w _ H R).
    + apply sync_label_marked.
  - intros R s E. destruct (seen_by_accepted _ x R) as [b [B S]].
    rewrite S in H. rewrite B.
    rewrite (sync_accepted_marker c w b s H E).
    split; intros [F [m M]]; (split; [exact F | exists m; congruence]).
  - intros R. rewrite <- failed_seen_by in R.
    pose proof (async_run_none c w _ H (decoded_failed _ R)) as A. split.
    + intros O. exists (async_on_none c). split; [exact A |].
      destruct c; try discriminate O; reflexivity.
    + intros username ->. exact A.
  - intros R O s E. destruct (seen_by_accepted _ x R) as [b [B S]].
    rewrite S in H. rewrite B.
    rewrite (async_accepted_marker c w b s O H E).
    split; intros [v [V T]]; exists v; (split; [congruence | exact T]).
Qed.

Lemma C3_marked_failure_example :
  exists s,
    fst (run Synchronous (UserInfo "octo")
           (world_answering
              (seen_by Synchronous
                 (Answered (mk_answer 404 "404 Client Error: Not Found"
                              (Json (PDict [("message", PStr "Not Found")]))))))) =
      Returned s /\
    startswith "Error" s = true.
Proof.
  destruct (C3_failures_marked_by_variant (UserInfo "octo")
              (world_answering
                 (seen_by Synchronous
                    (Answered (mk_answer 404 "404 Client Error: Not Found"
                                 (Json (PDict [("message", PStr "Not Found")]))))))
              (Answered (mk_answer 404 "404 Client Error: Not Found"
                           (Json (PDict [("message", PStr "Not Found")])))))
    as [S _].
  destruct S as [M _].
  - intros h r. reflexivity.
  - apply M. reflexivity.
Defined.

(** ** C4: what leaves the tool *)


Lemma sync_listing_text (ds : list dict) :
  Sync.repos_text (PList (map PDict ds)) =
  Returned (match ds with
            | [] => "No repositories found."
            | _ => "Repositories:" ++ nl ++ join nl (map repo_entry (firstn 10 ds)) ++
                   (if (10 <? List.length ds)%nat then showing_note (List.length ds) else "")
            end).
Proof.
  destruct ds as [|d ds]; [reflexivity |].
  unfold Sync.repos_text, slice, slice_to, len.
  change (truthy (PList (map PDict (d :: ds)))) with true. cbn [negb bind].
  rewrite firstn_map, sync_repo_lines. cbn [bind]. now rewrite !length_map.
Qed.

Lemma async_listing_text (w : world) (ds : list dict) (username : string) :
  answers w (ok (PList (map PDict ds))) ->
  fst (Async.list_repositories w username) =
  Returned (match ds with
            | [] => "No repositories found or error occurred."
            | _ => "Repositories:" ++ nl ++ join nl (map repo_entry (firstn 10 ds)) ++
                   (if (10 <? List.length ds)%nat then showing_note (List.length ds) else "")
            end).
Proof.
  intros H. rewrite (async_list_repositories_reply w _ username H), decoded_ok.
  destruct ds as [|d ds]; [reflexivity |].
  unfold slice, slice_to, len.
  change (truthy (PList (map PDict (d :: ds)))) with true. cbn [bind].
  rewrite firstn_map, async_repo_lines. cbn [bind]. now rewrite !length_map.
Qed.





(** ** C5: the listing and its limit of ten *)



(** ** C6: the body of the merge request *)

(** C6.  In both variants [merge_pull_request] issues one PUT request whose
    JSON body is the empty object when [commit_message] is the empty string,
    and otherwise the object with the single field [commit_message], equal
    to the input. *)
Theorem C6_merge_body_carries_message_when_given (w : world) (owner repo : string)
    (pull_number : Z) (commit_message : string) :
  (exists r payload,
     sent (snd (Sync.merge_pull_request w owner repo pull_number commit_message)) =
       (sent w ++ [r])%list /\
     req_method r = "PUT" /\ req_json r = Some payload /\
     payload = (if commit_message =? "" then [] else [("commit_message", PStr commit_message)]) /\
     lookup "commit_message" payload =
       (if commit_message =? "" then None else Some (PStr commit_message))) /\
  (exists r payload,
     sent (snd (Async.merge_pull_request w owner repo pull_number commit_message)) =
       (sent w ++ [r])%list /\
     req_method r = "PUT" /\ req_json r = Some payload /\
     payload = (if commit_message =? "" then [] else [("commit_message", PStr commit_message)]) /\
     lookup "commit_message" payload =
       (if commit_message =? "" then None else Some (PStr commit_message))).
Proof.
  split.
  - eexists. exists (Sync.merge_payload commit_message).
    split; [reflexivity |]. split; [reflexivity |]. split; [reflexivity |].
    unfold Sync.merge_payload, truthy. destruct (commit_message =? ""); split; reflexivity.
  - eexists. exists (Async.merge_payload commit_message).
    split; [reflexivity |]. split; [reflexivity |]. split; [reflexivity |].
    unfold Async.merge_payload, truthy. destruct (commit_message =? ""); split; reflexivity.
Qed.

(** ** C7: the user summary *)

(** C7 fails as stated: in the asynchronous variant a success answer whose
    object has none of the fields is reported as an error, and no field is
    shown. *)
Lemma C7_async_empty_object_shows_no_field :
  fst (Async.github_user_info (world_answering (ok (PDict []))) "octo") =
    Returned "Error fetching user info.".
Proof. reflexivity. Qed.

(** C7, amended.  For every success answer whose body is a JSON object,
    which in the asynchronous variant must not be empty, the summary is the
    eight lines of [user_lines] joined by line breaks, white space at the end
    removed: name and login on the first line, then bio, public repo count,
    followers, following, location, company and creation date.  A field
    missing from the object is shown as the default of its [.get]: "N/A" for
    name, bio, location, company and creation date, 0 for the three counts,
    and "None" for the login, which has no default. *)
Theorem C7_user_summary_fields (w : world) (username : string) (d : dict) :
  answers w (ok (PDict d)) ->
  fst (Sync.get_user_info w username) = Returned (rstrip (join nl (user_lines d))) /\
  (d <> [] ->
   fst (Async.github_user_info w username) = Returned (rstrip (join nl (user_lines d)))) /\
  (forall k p, lookup k d = None -> field d k p = str p) /\
  (lookup "name" d = None -> lookup "login" d = None -> lookup "bio" d = None ->
   lookup "public_repos" d = None -> lookup "followers" d = None ->
   lookup "following" d = None -> lookup "location" d = None ->
   lookup "company" d = None -> lookup "created_at" d = None ->
   rstrip (join nl (user_lines d)) =
     "User: N/A (@None)" ++ nl ++ "Bio: N/A" ++ nl ++ "Public Repos: 0" ++ nl ++
     "Followers: 0" ++ nl ++ "Following: 0" ++ nl ++ "Location: N/A" ++ nl ++
     "Company: N/A" ++ nl ++ "Created: N/A").
Proof.
  intros H. split; [| split; [| split]].
  - rewrite (sync_get_user_info_reply w _ username H), sync_reply_ok.
    apply sync_user_text.
  - intros N. rewrite (async_github_user_info_reply w _ username H), decoded_ok.
    destruct d as [|kv d]; [now destruct N |]. cbn [truthy]. apply async_user_text.
  - intros k p. apply field_absent.
  - intros H1 H2 H3 H4 H5 H6 H7 H8 H9. unfold user_lines.
    rewrite !field_absent by assumption. reflexivity.
Qed.

Lemma C7_user_summary_example :
  fst (Sync.get_user_info
         (world_answering (ok (PDict [("login", PStr "octo"); ("followers", PInt 7)])))
         "octo") =
    Returned ("User: N/A (@octo)" ++ nl ++ "Bio: N/A" ++ nl ++ "Public Repos: 0" ++ nl ++
              "Followers: 7" ++ nl ++ "Following: 0" ++ nl ++ "Location: N/A" ++ nl ++
              "Company: N/A" ++ nl ++ "Created: N/A") /\
  fst (Async.github_user_info
         (world_answering (ok (PDict [("login", PStr "octo"); ("followers", PInt 7)])))
         "octo") =
    Returned ("User: N/A (@octo)" ++ nl ++ "Bio: N/A" ++ nl ++ "Public Repos: 0" ++ nl ++
              "Followers: 7" ++ nl ++ "Following: 0" ++ nl ++ "Location: N/A" ++ nl ++
              "Company: N/A" ++ nl ++ "Created: N/A").
Proof.
  destruct (C7_user_summary_fields
              (world_answering (ok (PDict [("login", PStr "octo"); ("followers", PInt 7)])))
              "octo" [("login", PStr "octo"); ("followers", PInt 7)]) as [S [A _]].
  - intros h r. reflexivity.
  - split; [exact S |]. apply A. discriminate.
Defined.

(** The login has no default: a missing login reads "None". *)
Lemma missing_login_reads_None :
  fst (Sync.get_user_info (world_answering (ok (PDict [("name", PStr "Ada")]))) "ada") =
    Returned ("User: Ada (@None)" ++ nl ++ "Bio: N/A" ++ nl ++ "Public Repos: 0" ++ nl ++
              "Followers: 0" ++ nl ++ "Following: 0" ++ nl ++ "Location: N/A" ++ nl ++
              "Company: N/A" ++ nl ++ "Created: N/A").
Proof. reflexivity. Qed.

(** ** C8: the private flag *)

(** C8.  In both variants the JSON body [create_repository] sends has the
    field [private] equal to the input.  When the call succeeds with an
    object whose [private] flag is the boolean [b], the last line of the
    returned summary is "Private: True" or "Private: False" after [b],
    whatever the input was. *)
Theorem C8_private_sent_and_reported (w : world) (name description : string)
    (private b : bool) (d : dict) :
  answers w (ok (PDict d)) -> lookup "private" d = Some (PBool b) ->
  (exists r payload,
     sent (snd (Sync.create_repository w name description private)) = (sent w ++ [r])%list /\
     req_json r = Some payload /\ lookup "private" payload = Some (PBool private)) /\
  (exists r payload,
     sent (snd (Async.create_repository w name description private)) = (sent w ++ [r])%list /\
     req_json r = Some payload /\ lookup "private" payload = Some (PBool private)) /\
  fst (Sync.create_repository w name description private) =
    Returned (join nl [ "Repository created successfully!";
                        "Name: " ++ field d "full_name" PNone;
                        "URL: " ++ field d "html_url" PNone;
                        "Description: " ++ field d "description" (PStr "N/A");
                        "Private: " ++ (if b then "True" else "False") ]) /\
  fst (Async.create_repository w name description private) =
    Returned (join nl [ "Repository created successfully!";
                        "Name: " ++ field d "full_name" PNone;
                        "URL: " ++ field d "html_url" PNone;
                        "Description: " ++ field d "description" (PStr "N/A");
                        "Private: " ++ (if b then "True" else "False") ]).
Proof.
  intros H P.
  assert (K : rstrip (join nl (created_repo_lines d)) =
              join nl [ "Repository created successfully!";
                        "Name: " ++ field d "full_name" PNone;
                        "URL: " ++ field d "html_url" PNone;
                        "Description: " ++ field d "description" (PStr "N/A");
                        "Private: " ++ (if b then "True" else "False") ]).
  { unfold created_repo_lines. rewrite (field_present d "private" _ _ P).
    change (str (PBool b)) with (if b then "True" else "False").
    apply kept_rstrip. cbn [join]. repeat apply kept_app.
    destruct b; kept_literal. }
  split; [| split; [| split]].
  - do 2 eexists. split; [reflexivity |]. split; reflexivity.
  - do 2 eexists. split; [reflexivity |]. split; reflexivity.
  - rewrite (sync_create_repository_reply w _ name description private H), sync_reply_ok.
    rewrite sync_repo_text. now rewrite K.
  - rewrite (async_create_repository_reply w _ name description private H), decoded_ok.
    destruct d as [|kv d]; [discriminate P |]. cbn [truthy].
    rewrite async_repo_text. now rewrite K.
Qed.

Lemma C8_private_example :
  fst (Sync.create_repository
         (world_answering (ok (PDict [("full_name", PStr "octo/demo"); ("private", PBool true)])))
         "demo" "" false) =
    Returned ("Repository created successfully!" ++ nl ++ "Name: octo/demo" ++ nl ++
              "URL: None" ++ nl ++ "Description: N/A" ++ nl ++ "Private: True").
Proof.
  destruct (C8_private_sent_and_reported
              (world_answering
                 (ok (PDict [("full_name", PStr "octo/demo"); ("private", PBool true)])))
              "demo" "" false true
              [("full_name", PStr "octo/demo"); ("private", PBool true)]) as [_ [_ [S _]]].
  - intros h r. reflexivity.
  - reflexivity.
  - exact S.
Defined.

(** ** C9: an empty body in the asynchronous variant *)

(** C9.  In the asynchronous variant, for [github_user_info],
    [create_repository], [create_pull_request] and [merge_pull_request], a
    success answer whose JSON body is empty or otherwise false for Python
    (the empty object, for one) yields the tool's error string, the same
    string a failed call yields. *)
Theorem C9_async_empty_body_reads_as_failure (w wf : world) (v : pyval) (o : outcome)
    (username name description owner repo title head base body commit_message : string)
    (private : bool) (pull_number : Z) :
  answers w (ok v) -> truthy v = false ->
  answers wf o -> failed o = true ->
  (fst (Async.github_user_info w username) = Returned "Error fetching user info." /\
   fst (Async.github_user_info wf username) = Returned "Error fetching user info.") /\
  (fst (Async.create_repository w name description private) =
     Returned "Error creating repository." /\
   fst (Async.create_repository wf name description private) =
     Returned "Error creating repository.") /\
  (fst (Async.create_pull_request w owner repo title head base body) =
     Returned "Error creating pull request." /\
   fst (Async.create_pull_request wf owner repo title head base body) =
     Returned "Error creating pull request.") /\
  (fst (Async.merge_pull_request w owner repo pull_number commit_message) =
     Returned "Error merging pull request." /\
   fst (Async.merge_pull_request wf owner repo pull_number commit_message) =
     Returned "Error merging pull request.").
Proof.
  intros H T Hf F.
  rewrite (async_github_user_info_reply w (ok v)), (async_github_user_info_reply wf o),
    (async_create_repository_reply w (ok v)), (async_create_repository_reply wf o),
    (async_create_pull_request_reply w (ok v)), (async_create_pull_request_reply wf o),
    (async_merge_pull_request_reply w (ok v)), (async_merge_pull_request_reply wf o)
    by assumption.
  rewrite decoded_ok, T, (decoded_failed o F). cbn [truthy]. repeat split.
Qed.

Lemma C9_empty_object_example :
  fst (Async.merge_pull_request (world_answering (ok (PDict []))) "octo" "demo" 7 "") =
    Returned "Error merging pull request." /\
  fst (Async.merge_pull_request
         (world_answering (Responded (mk_response (Some "405 Method Not Allowed")
                                        (Json (PDict [("message", PStr "no")])))))
         "octo" "demo" 7 "") =
    Returned "Error merging pull request.".
Proof.
  destruct (C9_async_empty_body_reads_as_failure
              (world_answering (ok (PDict [])))
              (world_answering (Responded (mk_response (Some "405 Method Not Allowed")
                                             (Json (PDict [("message", PStr "no")])))))
              (PDict [])
              (Responded (mk_response (Some "405 Method Not Allowed")
                            (Json (PDict [("message", PStr "no")]))))
              "" "" "" "octo" "demo" "" "" "" "" "" false 7%Z) as [_ [_ [_ M]]].
  - intros h r. reflexivity.
  - reflexivity.
  - intros h r. reflexivity.
  - reflexivity.
  - exact M.
Defined.

(** ** C10: a field that is present and null *)

(** C10.  In both variants a field whose key is present with the value null
    is shown as "None"; the default of [.get] is shown only when the key is
    missing.  So a null bio gives the line "Bio: None" in the user summary
    and a missing one "Bio: N/A"; a null description gives ": None (" in a
    listing entry and a missing one ": No description (". *)
Theorem C10_null_field_reads_None (w wl : world) (username : string) (u r : dict) :
  answers w (ok (PDict u)) -> answers wl (ok (PList [PDict r])) -> u <> [] ->
  (forall k p, lookup k u = Some PNone -> field u k p = "None") /\
  (forall k p, lookup k u = None -> field u k p = str p) /\
  (fst (Sync.get_user_info w username) = Returned (rstrip (join nl (user_lines u))) /\
   fst (Async.github_user_info w username) = Returned (rstrip (join nl (user_lines u))) /\
   (lookup "bio" u = Some PNone -> nth 1 (user_lines u) "" = "Bio: None") /\
   (lookup "bio" u = None -> nth 1 (user_lines u) "" = "Bio: N/A")) /\
  (lookup "description" r = Some PNone ->
   fst (Sync.list_repositories wl username) =
     Returned ("Repositories:" ++ nl ++ "- " ++ field r "full_name" PNone ++
               ": None (" ++ field r "html_url" PNone ++ ")") /\
   fst (Async.list_repositories wl username) =
     Returned ("Repositories:" ++ nl ++ "- " ++ field r "full_name" PNone ++
               ": None (" ++ field r "html_url" PNone ++ ")")) /\
  (lookup "description" r = None ->
   fst (Sync.list_repositories wl username) =
     Returned ("Repositories:" ++ nl ++ "- " ++ field r "full_name" PNone ++
               ": No description (" ++ field r "html_url" PNone ++ ")") /\
   fst (Async.list_repositories wl username) =
     Returned ("Repositories:" ++ nl ++ "- " ++ field r "full_name" PNone ++
               ": No description (" ++ field r "html_url" PNone ++ ")")).
Proof.
  intros H Hl N.
  assert (L : forall shown,
             field r "description" (PStr "No description") = shown ->
             fst (Sync.list_repositories wl username) =
               Returned ("Repositories:" ++ nl ++ "- " ++ field r "full_name" PNone ++
                         ": " ++ shown ++ " (" ++ field r "html_url" PNone ++ ")") /\
             fst (Async.list_repositories wl username) =
               Returned ("Repositories:" ++ nl ++ "- " ++ field r "full_name" PNone ++
                         ": " ++ shown ++ " (" ++ field r "html_url" PNone ++ ")")).
  { intros shown <-.
    rewrite (sync_list_repositories_reply wl _ username Hl), sync_reply_ok.
    change (PList [PDict r]) with (PList (map PDict [r])) in Hl |- *.
    rewrite (sync_listing_text [r]), (async_listing_text wl [r] username Hl).
    cbn [List.length Nat.ltb Nat.leb firstn map join]. rewrite !append_empty_r.
    split; reflexivity. }
  split; [| split; [| split; [| split]]].
  - intros k p P. now rewrite (field_present u k p PNone P).
  - intros k p. apply field_absent.
  - split; [| split; [| split]].
    + rewrite (sync_get_user_info_reply w _ username H), sync_reply_ok.
      apply sync_user_text.
    + rewrite (async_github_user_info_reply w _ username H), decoded_ok.
      destruct u as [|kv u]; [now destruct N |]. cbn [truthy]. apply async_user_text.
    + intros P. cbn [user_lines nth]. now rewrite (field_present u "bio" _ PNone P).
    + intros P. cbn [user_lines nth]. now rewrite (field_absent u "bio" _ P).
  - intros P. apply (L "None"). now rewrite (field_present r "description" _ PNone P).
  - intros P. apply (L "No description"). now rewrite (field_absent r "description" _ P).
Qed.

Lemma C10_null_bio_example :
  fst (Sync.get_user_info
         (world_answering (ok (PDict [("login", PStr "octo"); ("bio", PNone)]))) "octo") =
    Returned ("User: N/A (@octo)" ++ nl ++ "Bio: None" ++ nl ++ "Public Repos: 0" ++ nl ++
              "Followers: 0" ++ nl ++ "Following: 0" ++ nl ++ "Location: N/A" ++ nl ++
              "Company: N/A" ++ nl ++ "Created: N/A") /\
  fst (Async.list_repositories
         (world_answering
            (ok (PList [PDict [("full_name", PStr "octo/demo"); ("description", PNone);
                               ("html_url", PStr "u")]]))) "octo") =
    Returned ("Repositories:" ++ nl ++ "- octo/demo: None (u)").
Proof.
  destruct (C10_null_field_reads_None
              (world_answering (ok (PDict [("login", PStr "octo"); ("bio", PNone)])))
              (world_answering
                 (ok (PList [PDict [("full_name", PStr "octo/demo"); ("description", PNone);
                                    ("html_url", PStr "u")]])))
              "octo"
              [("login", PStr "octo"); ("bio", PNone)]
              [("full_name", PStr "octo/demo"); ("description", PNone); ("html_url", PStr "u")])
    as [_ [_ [[S _] [D _]]]].
  - intros h r. reflexivity.
  - intros h r. reflexivity.
  - discriminate.
  - split; [exact S |]. apply D. reflexivity.
Defined.

(** ** [hello_world] *)

Lemma hello_world_greets (name : string) :
  Sync.hello_world None = "Hello, World!" /\
  Async.hello_world None = "Hello, World!" /\
  Sync.hello_world (Some name) = "Hello, " ++ name ++ "!" /\
  Async.hello_world (Some name) = "Hello, " ++ name ++ "!".
Proof. repeat split. Qed.

(** * Further properties of the two files *)

(** ** Requests *)

Ltac unfold_tools :=
  unfold run, Sync.get_user_info, Sync.create_repository, Sync.delete_repository,
    Sync.create_pull_request, Sync.merge_pull_request, Sync.list_repositories,
    Async.github_user_info, Async.create_repository, Async.delete_repository,
    Async.create_pull_request, Async.merge_pull_request, Async.list_repositories,
    Async.make_github_request, Sync.requests_get, Sync.requests_post, Sync.requests_put,
    Sync.requests_delete, send.

Lemma sync_auth_headers_table (w : world) : Sync.auth_headers w = headers_of Synchronous w.
Proof.
  unfold Sync.auth_headers, headers_of, authorization, pat_set, truthy.
  destruct (GITHUB_PAT w) as [t|]; [destruct (t =? "") |]; reflexivity.
Qed.

Lemma async_headers_table (w : world) :
  match pat_set w with
  | Some t =>
      List.app [("User-Agent", Async.USER_AGENT); ("Accept", "application/vnd.github+json")]
        [("Authorization", "Bearer " ++ t)]
  | None => [("User-Agent", Async.USER_AGENT); ("Accept", "application/vnd.github+json")]
  end = headers_of Asynchronous w.
Proof.
  unfold headers_of, authorization, pat_set, truthy.
  destruct (GITHUB_PAT w) as [t|]; [destruct (t =? "") |]; reflexivity.
Qed.

Lemma sync_merge_payload_table (commit_message : string) :
  Sync.merge_payload commit_message =
  if commit_message =? "" then [] else [("commit_message", PStr commit_message)].
Proof. unfold Sync.merge_payload, truthy. now destruct (commit_message =? ""). Qed.

Lemma async_merge_payload_table (commit_message : string) :
  Async.merge_payload commit_message =
  if commit_message =? "" then [] else [("commit_message", PStr commit_message)].
Proof. unfold Async.merge_payload, truthy. now destruct (commit_message =? ""). Qed.

Lemma run_world (v : variant) (c : call) (w : world) :
  snd (run v c w) =
  mk_world (GITHUB_PAT w) (net w) (sent w ++ [expected_request v w c])%list.
Proof.
  destruct v, c; unfold_tools; cbn [snd]; unfold expected_request;
    rewrite ?sync_auth_headers_table, ?async_headers_table,
      ?sync_merge_payload_table, ?async_merge_payload_table;
    cbn [method_of path_of body_of timeout_of truthy];
    try reflexivity.
  all: destruct (username =? ""); reflexivity.
Qed.

Lemma run_result (v : variant) (c : call) (w : world) :
  fst (run v c w) =
  fst (run v c (world_answering (net w (sent w) (expected_request v w c)))).
Proof.
  destruct v, c; unfold_tools; cbn [fst net world_answering]; unfold expected_request;
    rewrite ?sync_auth_headers_table, ?async_headers_table,
      ?sync_merge_payload_table, ?async_merge_payload_table;
    cbn [method_of path_of body_of timeout_of truthy];
    try reflexivity.
  all: destruct (username =? ""); reflexivity.
Qed.

(** X1.  Whatever the remote side does, a tool issues exactly one request:
    the log of requests grows by that one entry, the credential is left as
    it was and the remote side is contacted no further.  The request has the method, the URL
    under https://api.github.com and the JSON body of the endpoint table,
    the same in both files; only the asynchronous file sets a timeout, of
    30 seconds. *)
Theorem X1_one_request_per_call (v : variant) (c : call) (w : world) :
  exists r,
    snd (run v c w) = mk_world (GITHUB_PAT w) (net w) (sent w ++ [r])%list /\
    req_method r = method_of c /\
    req_url r = "https://api.github.com" ++ path_of c /\
    req_json r = body_of c /\
    req_timeout r = match v with Synchronous => None | Asynchronous => Some 30%Z end.
Proof.
  exists (expected_request v w c). split; [apply run_world |].
  destruct v; repeat split.
Qed.

Lemma header_app_miss (name : string) (hs hs' : list (string * string)) :
  header name hs = None -> header name (hs ++ hs')%list = header name hs'.
Proof.
  induction hs as [|[k x] hs IH]; cbn; [reflexivity |].
  destruct (k =? name); [discriminate | exact IH].
Qed.

(** X2.  The request of a tool carries an Authorization header exactly when
    the credential is set and not empty: "token <credential>" in the
    synchronous file, "Bearer <credential>" in the asynchronous one.  The
    asynchronous file always sends its User-Agent and the Accept header for
    GitHub's JSON; the synchronous file sends neither. *)
Theorem X2_headers_follow_the_credential (v : variant) (c : call) (w : world) (r : request) :
  sent (snd (run v c w)) = (sent w ++ [r])%list ->
  (GITHUB_PAT w = None \/ GITHUB_PAT w = Some "" ->
   header "Authorization" (req_headers r) = None) /\
  (forall t, GITHUB_PAT w = Some t -> t <> "" ->
   header "Authorization" (req_headers r) =
     Some (match v with Synchronous => "token " | Asynchronous => "Bearer " end ++ t)) /\
  header "User-Agent" (req_headers r) =
    match v with Synchronous => None | Asynchronous => Some "github-mcp-client/1.0" end /\
  header "Accept" (req_headers r) =
    match v with
    | Synchronous => None
    | Asynchronous => Some "application/vnd.github+json"
    end.
Proof.
  rewrite run_world. cbn [sent]. intros E.
  apply app_inj_tail in E. destruct E as [_ <-].
  cbn [expected_request req_headers]. unfold headers_of, authorization.
  repeat split.
  - intros [P | P]; rewrite P; destruct v; reflexivity.
  - intros t P N. rewrite P. apply String.eqb_neq in N. rewrite N.
    destruct v; reflexivity.
  - destruct v; [| reflexivity].
    destruct (GITHUB_PAT w) as [t|]; [destruct (t =? "") |]; reflexivity.
  - destruct v; [| reflexivity].
    destruct (GITHUB_PAT w) as [t|]; [destruct (t =? "") |]; reflexivity.
Qed.

Lemma X2_headers_example :
  header "Authorization"
    (req_headers
       (mk_request "GET" "https://api.github.com/users/octo"
          [("User-Agent", "github-mcp-client/1.0"); ("Accept", "application/vnd.github+json");
           ("Authorization", "Bearer s3cret")] None (Some 30%Z))) =
  Some "Bearer s3cret".
Proof.
  destruct (X2_headers_follow_the_credential Asynchronous (UserInfo "octo")
              (mk_world (Some "s3cret") (fun _ _ => ConnectionFailed "down") [])
              (mk_request "GET" "https://api.github.com/users/octo"
                 [("User-Agent", "github-mcp-client/1.0");
                  ("Accept", "application/vnd.github+json");
                  ("Authorization", "Bearer s3cret")] None (Some 30%Z)))
    as [_ [A _]].
  - reflexivity.
  - apply (A "s3cret"); [reflexivity | discriminate].
Defined.

(** X3.  The result of a tool depends on the remote side only through the
    answer it gives, after the requests it has already received, to the one
    request the tool sends: it is the result the tool gives when every
    request gets that answer.  The credential changes the request, not the
    way the answer is read. *)
Theorem X3_result_decided_by_the_answer (v : variant) (c : call) (w : world) :
  exists r,
    sent (snd (run v c w)) = (sent w ++ [r])%list /\
    fst (run v c w) = fst (run v c (world_answering (net w (sent w) r))).
Proof.
  exists (expected_request v w c). split.
  - now rewrite run_world.
  - apply run_result.
Qed.

Lemma run_after (v1 v2 : variant) (c1 c2 : call) (w : world) :
  fst (run v2 c2 (snd (run v1 c1 w))) =
  fst (run v2 c2
         (world_answering
            (net w (sent w ++ [expected_request v1 w c1])%list (expected_request v2 w c2)))).
Proof. rewrite run_result, run_world. reflexivity. Qed.

(** X4.  The tools keep no state of their own between calls: a first call
    can change what a second one returns only through the remote side.  The
    second call sends the request it would send alone, the log holds the two
    requests in order, and the result of the second call is the one decided
    by the remote's answer to its request after the first.  So whenever the
    remote answers the second request the same with and without the first
    behind it, the second call returns what it would have returned alone. *)
Theorem X4_calls_meet_only_at_the_remote (v1 v2 : variant) (c1 c2 : call) (w : world) :
  exists r1 r2,
    sent (snd (run v1 c1 w)) = (sent w ++ [r1])%list /\
    sent (snd (run v2 c2 w)) = (sent w ++ [r2])%list /\
    sent (snd (run v2 c2 (snd (run v1 c1 w)))) = (sent w ++ [r1; r2])%list /\
    fst (run v2 c2 (snd (run v1 c1 w))) =
      fst (run v2 c2 (world_answering (net w (sent w ++ [r1])%list r2))) /\
    (net w (sent w ++ [r1])%list r2 = net w (sent w) r2 ->
     fst (run v2 c2 (snd (run v1 c1 w))) = fst (run v2 c2 w)).
Proof.
  exists (expected_request v1 w c1), (expected_request v2 w c2).
  repeat split.
  - now rewrite run_world.
  - now rewrite run_world.
  - rewrite !run_world. cbn [sent GITHUB_PAT]. now rewrite <- app_assoc.
  - apply run_after.
  - intros E. rewrite run_after, E. symmetry. apply run_result.
Qed.

Lemma X4_two_calls_example :
  fst (run Synchronous (ListRepositories "octo")
         (snd (run Asynchronous (DeleteRepository "octo" "demo")
                 (world_answering (ok (PList [])))))) =
  fst (run Synchronous (ListRepositories "octo") (world_answering (ok (PList [])))).
Proof.
  destruct (X4_calls_meet_only_at_the_remote Asynchronous Synchronous
              (DeleteRepository "octo" "demo") (ListRepositories "octo")
              (world_answering (ok (PList [])))) as [r1 [r2 [_ [_ [_ [_ S]]]]]].
  apply S. reflexivity.
Defined.

(** ** Failures *)

(** X5.  The synchronous file keeps the text of a failure: a failed call
    returns the tool's label followed by the text of the exception, so two
    failures are reported by the same string only if their texts are the
    same.  The asynchronous file drops it: all failed calls of a tool with
    the same arguments return one and the same string. *)
Theorem X5_failure_text_kept_or_dropped (c : call) (w1 w2 : world) (o1 o2 : outcome) :
  answers w1 o1 -> failed o1 = true ->
  answers w2 o2 -> failed o2 = true ->
  fst (run Synchronous c w1) = Returned (sync_label c ++ failure_text o1) /\
  (fst (run Synchronous c w1) = fst (run Synchronous c w2) ->
   failure_text o1 = failure_text o2) /\
  fst (run Asynchronous c w1) = fst (run Asynchronous c w2).
Proof.
  intros H1 F1 H2 F2.
  rewrite (sync_run_failed c w1 o1 H1 F1), (sync_run_failed c w2 o2 H2 F2).
  rewrite (async_run_none c w1 o1 H1 (decoded_failed o1 F1)).
  rewrite (async_run_none c w2 o2 H2 (decoded_failed o2 F2)).
  repeat split. intros E. injection E as E. now apply append_inj_l in E.
Qed.

Lemma X5_failure_text_example :
  fst (run Synchronous (CreatePullRequest "octo" "demo" "t" "dev" "main" "")
         (world_answering (Responded (mk_response (Some "422 Unprocessable") (Undecodable "")))))
  = Returned "Error creating pull request: 422 Unprocessable" /\
  fst (run Asynchronous (CreatePullRequest "octo" "demo" "t" "dev" "main" "")
         (world_answering (Responded (mk_response (Some "422 Unprocessable") (Undecodable "")))))
  = fst (run Asynchronous (CreatePullRequest "octo" "demo" "t" "dev" "main" "")
           (world_answering (ConnectionFailed "timed out"))).
Proof.
  destruct (X5_failure_text_kept_or_dropped
              (CreatePullRequest "octo" "demo" "t" "dev" "main" "")
              (world_answering
                 (Responded (mk_response (Some "422 Unprocessable") (Undecodable ""))))
              (world_answering (ConnectionFailed "timed out"))
              (Responded (mk_response (Some "422 Unprocessable") (Undecodable "")))
              (ConnectionFailed "timed out")) as [S [_ A]].
  - intros h r. reflexivity.
  - reflexivity.
  - intros h r. reflexivity.
  - reflexivity.
  - split; [exact S | exact A].
Defined.

(** X6.  An answer whose status is accepted but whose body the decoder does
    not decode.  Synchronous file: [delete_repository] never reads the body
    and returns its confirmation; the five other tools return their label
    followed by the decoder's message when the body is malformed JSON (the
    empty body of a 204 answer included), and let the decoder's own
    exception out when it gives up with [ValueError] (an integer over the
    digit limit) or [RecursionError] (nesting too deep), neither being a
    [RequestException].  Asynchronous file: the helper catches whatever the
    decoder raises and returns [None], so the four summary tools return
    their error string, [list_repositories] its nothing-found string, and
    [delete_repository] its confirmation. *)
Theorem X6_undecodable_body (c : call) (w : world) (b : body) :
  answers w (accepted b) -> (forall v, b <> Json v) ->
  (forall owner repo, c = DeleteRepository owner repo ->
   fst (run Synchronous c w) =
     Returned ("Repository " ++ owner ++ "/" ++ repo ++ " was deleted successfully!")) /\
  (reads_body c = true ->
   (forall m, b = Undecodable m ->
    fst (run Synchronous c w) = Returned (sync_label c ++ m)) /\
   (forall m, b = Overlong m -> fst (run Synchronous c w) = Raised (ValueError m)) /\
   (b = Overdeep -> fst (run Synchronous c w) = Raised RecursionError)) /\
  fst (run Asynchronous c w) =
    Returned (match c with
              | UserInfo _ => "Error fetching user info."
              | CreateRepository _ _ _ => "Error creating repository."
              | DeleteRepository owner repo =>
                  "Repository " ++ owner ++ "/" ++ repo ++ " was deleted successfully!"
              | CreatePullRequest _ _ _ _ _ _ => "Error creating pull request."
              | MergePullRequest _ _ _ _ => "Error merging pull request."
              | ListRepositories _ => "No repositories found or error occurred."
              end).
Proof.
  intros H N.
  assert (S : reads_body c = true ->
              fst (run Synchronous c w) =
              sync_reply (sync_label c)
                (fun _ => Raised AttributeError) (accepted b)).
  { intros R. destruct c; try discriminate R; cbn [run sync_label].
    - rewrite (sync_get_user_info_reply w _ _ H).
      destruct b as [m | m | | v]; try reflexivity. now destruct (N v).
    - rewrite (sync_create_repository_reply w _ _ _ _ H).
      destruct b as [m | m | | v]; try reflexivity. now destruct (N v).
    - rewrite (sync_create_pull_request_reply w _ _ _ _ _ _ _ H).
      destruct b as [m | m | | v]; try reflexivity. now destruct (N v).
    - rewrite (sync_merge_pull_request_reply w _ _ _ _ _ H).
      destruct b as [m | m | | v]; try reflexivity. now destruct (N v).
    - rewrite (sync_list_repositories_reply w _ _ H).
      destruct b as [m | m | | v]; try reflexivity. now destruct (N v). }
  split; [| split].
  - intros owner repo ->. cbn [run].
    now rewrite (sync_delete_repository_reply w _ _ _ H).
  - intros R. rewrite (S R). repeat split.
    + intros m ->. reflexivity.
    + intros m ->. reflexivity.
    + intros ->. reflexivity.
  - assert (D : decoded (accepted b) = PNone).
    { destruct b as [m | m | | v]; try reflexivity. now destruct (N v). }
    rewrite (async_run_none c w _ H D). destruct c; reflexivity.
Qed.

Lemma X6_no_content_example :
  fst (run Synchronous (DeleteRepository "octo" "demo")
         (world_answering (accepted (Undecodable "")))) =
    Returned "Repository octo/demo was deleted successfully!" /\
  fst (run Asynchronous (DeleteRepository "octo" "demo")
         (world_answering (accepted (Undecodable "")))) =
    Returned "Repository octo/demo was deleted successfully!" /\
  fst (run Synchronous (UserInfo "octo")
         (world_answering (accepted (Overlong "Exceeds the limit")))) =
    Raised (ValueError "Exceeds the limit").
Proof.
  destruct (X6_undecodable_body (DeleteRepository "octo" "demo")
              (world_answering (accepted (Undecodable ""))) (Undecodable ""))
    as [S [_ A]].
  - intros h r. reflexivity.
  - intros v E. discriminate E.
  - destruct (X6_undecodable_body (UserInfo "octo")
                (world_answering (accepted (Overlong "Exceeds the limit")))
                (Overlong "Exceeds the limit")) as [_ [U _]].
    + intros h r. reflexivity.
    + intros v E. discriminate E.
    + destruct (U eq_refl) as [_ [V _]].
      split; [exact (S "octo" "demo" eq_refl) | split; [exact A | exact (V _ eq_refl)]].
Defined.

(** ** Bodies of an unexpected shape *)

(** X7.  For the four tools that format a JSON object, a success answer
    whose decoded body is not an object makes the synchronous tool raise
    [AttributeError], whatever the value; the asynchronous tool raises it
    when the value counts as true, and otherwise returns its error string. *)
Theorem X7_non_object_body (c : call) (w : world) (v : pyval) :
  reads_object c = true -> answers w (ok v) -> is_dict v = false ->
  fst (run Synchronous c w) = Raised AttributeError /\
  fst (run Asynchronous c w) =
    if truthy v then Raised AttributeError else Returned (async_on_none c).
Proof.
  intros R H D. split.
  - destruct c; try discriminate R; cbn [run].
    + rewrite (sync_get_user_info_reply w _ _ H), sync_reply_ok.
      destruct v; try discriminate D; reflexivity.
    + rewrite (sync_create_repository_reply w _ _ _ _ H), sync_reply_ok.
      destruct v; try discriminate D; reflexivity.
    + rewrite (sync_create_pull_request_reply w _ _ _ _ _ _ _ H),
        sync_reply_ok.
      destruct v; try discriminate D; reflexivity.
    + rewrite (sync_merge_pull_request_reply w _ _ _ _ _ H),
        sync_reply_ok.
      destruct v; try discriminate D; reflexivity.
  - destruct c; try discriminate R; cbn [run async_on_none].
    + rewrite (async_github_user_info_reply w _ _ H), decoded_ok.
      destruct (truthy v); [| reflexivity]. destruct v; try discriminate D; reflexivity.
    + rewrite (async_create_repository_reply w _ _ _ _ H), decoded_ok.
      destruct (truthy v); [| reflexivity]. destruct v; try discriminate D; reflexivity.
    + rewrite (async_create_pull_request_reply w _ _ _ _ _ _ _ H),
        decoded_ok.
      destruct (truthy v); [| reflexivity]. destruct v; try discriminate D; reflexivity.
    + rewrite (async_merge_pull_request_reply w _ _ _ _ _ H),
        decoded_ok.
      destruct (truthy v); [| reflexivity]. destruct v; try discriminate D; reflexivity.
Qed.

Lemma X7_array_body_example :
  fst (run Synchronous (MergePullRequest "octo" "demo" 7 "")
         (world_answering (ok (PList [])))) = Raised AttributeError /\
  fst (run Asynchronous (MergePullRequest "octo" "demo" 7 "")
         (world_answering (ok (PList [])))) = Returned "Error merging pull request.".
Proof.
  apply (X7_non_object_body (MergePullRequest "octo" "demo" 7 "")
           (world_answering (ok (PList []))) (PList [])).
  - reflexivity.
  - intros h r. reflexivity.
  - reflexivity.
Defined.

(** ** The listing beyond C5 *)

Lemma repo_lines_agree (items : list pyval) : Sync.repo_lines items = Async.repo_lines items.
Proof. induction items as [|x items IH]; cbn; [reflexivity | now rewrite IH]. Qed.

Lemma repo_lines_bad_element (pre : list dict) (x : pyval) (post : list pyval) :
  is_dict x = false ->
  Sync.repo_lines (map PDict pre ++ x :: post)%list = Raised AttributeError.
Proof.
  intros D. induction pre as [|d pre IH]; cbn.
  - destruct x; try discriminate D; reflexivity.
  - cbn in IH. now rewrite IH.
Qed.

Lemma listing_of_list (w : world) (l : list pyval) (username : string) :
  answers w (ok (PList l)) -> l <> [] ->
  fst (Sync.list_repositories w username) =
    (repo_list <- Sync.repo_lines (firstn 10 l) ;;
     Returned ("Repositories:" ++ nl ++ join nl repo_list ++
               (if (10 <? List.length l)%nat then showing_note (List.length l) else ""))) /\
  fst (Async.list_repositories w username) =
    (repo_list <- Sync.repo_lines (firstn 10 l) ;;
     Returned ("Repositories:" ++ nl ++ join nl repo_list ++
               (if (10 <? List.length l)%nat then showing_note (List.length l) else ""))).
Proof.
  intros H N. destruct l as [|x l]; [now destruct N |]. split.
  - rewrite (sync_list_repositories_reply w _ username H), sync_reply_ok. reflexivity.
  - rewrite (async_list_repositories_reply w _ username H), decoded_ok.
    cbn [truthy slice bind len]. unfold slice_to. now rewrite <- repo_lines_agree.
Qed.

(** X8.  [list_repositories] reads only the first ten elements of the
    answer.  When ten objects are followed by anything at all, objects or
    not, both files return the ten entries and the note with the full
    count; nothing is raised for what comes after the tenth. *)
Theorem X8_elements_after_the_tenth_unread (w : world) (username : string)
    (ds : list dict) (rest : list pyval) :
  answers w (ok (PList (map PDict ds ++ rest)%list)) ->
  List.length ds = 10%nat -> rest <> [] ->
  fst (Sync.list_repositories w username) =
    Returned ("Repositories:" ++ nl ++ join nl (map repo_entry ds) ++ nl ++ nl ++
              "(Showing 10 of " ++ str_int (Z.of_nat (10 + List.length rest)) ++
              " repositories)") /\
  fst (Async.list_repositories w username) =
    Returned ("Repositories:" ++ nl ++ join nl (map repo_entry ds) ++ nl ++ nl ++
              "(Showing 10 of " ++ str_int (Z.of_nat (10 + List.length rest)) ++
              " repositories)").
Proof.
  intros H L R. unfold dict in L.
  assert (N : (map PDict ds ++ rest)%list <> []).
  { destruct ds; [discriminate L | discriminate]. }
  destruct (listing_of_list w _ username H N) as [S A]. rewrite S, A.
  assert (F : firstn 10 (map PDict ds ++ rest)%list = map PDict ds).
  { rewrite firstn_app, length_map, L, Nat.sub_diag, firstn_O, app_nil_r.
    apply firstn_all2. rewrite length_map. lia. }
  assert (G : (10 <? List.length (map PDict ds ++ rest)%list)%nat = true).
  { apply Nat.ltb_lt. rewrite length_app, length_map, L.
    destruct rest; [now destruct R | cbn; lia]. }
  rewrite F, G, sync_repo_lines. cbn [bind]. unfold showing_note.
  rewrite length_app, length_map, L. split; reflexivity.
Qed.

Lemma X8_eleven_elements_example :
  fst (Sync.list_repositories
         (world_answering
            (ok (PList (map PDict (repeat [("full_name", PStr "octo/demo")] 10) ++
                        [PInt 0])%list))) "octo") =
    Returned ("Repositories:" ++ nl ++
              join nl (map repo_entry (repeat [("full_name", PStr "octo/demo")] 10)) ++
              nl ++ nl ++ "(Showing 10 of 11 repositories)").
Proof.
  destruct (X8_elements_after_the_tenth_unread
              (world_answering
                 (ok (PList (map PDict (repeat [("full_name", PStr "octo/demo")] 10) ++
                             [PInt 0])%list)))
              "octo" (repeat [("full_name", PStr "octo/demo")] 10) [PInt 0]) as [S _].
  - intros h r. reflexivity.
  - reflexivity.
  - discriminate.
  - exact S.
Defined.

(** X9.  When the answer to [list_repositories] is a non-empty body that is
    not an array of objects, both files raise instead of returning a string:
    [AttributeError] when one of the first ten elements of an array is not
    an object and when the body is a string, the slicing error when the body
    is an object, a number or [true]. *)
Theorem X9_listing_of_unexpected_shape (w : world) (username : string) (v : pyval) :
  answers w (ok v) -> truthy v = true ->
  (forall pre x post,
     v = PList (map PDict pre ++ x :: post)%list ->
     (List.length pre < 10)%nat -> is_dict x = false ->
     fst (Sync.list_repositories w username) = Raised AttributeError /\
     fst (Async.list_repositories w username) = Raised AttributeError) /\
  (forall s, v = PStr s ->
     fst (Sync.list_repositories w username) = Raised AttributeError /\
     fst (Async.list_repositories w username) = Raised AttributeError) /\
  ((forall l, v <> PList l) -> (forall s, v <> PStr s) ->
     fst (Sync.list_repositories w username) = Raised SubscriptError /\
     fst (Async.list_repositories w username) = Raised SubscriptError).
Proof.
  intros H T. split; [| split].
  - intros pre x post -> L D. unfold dict in L.
    assert (N : (map PDict pre ++ x :: post)%list <> []) by (destruct pre; discriminate).
    destruct (listing_of_list w _ username H N) as [Es Ea]. rewrite Es, Ea.
    assert (F : firstn 10 (map PDict pre ++ x :: post)%list =
                (map PDict pre ++ x :: firstn (9 - List.length pre) post)%list).
    { rewrite firstn_app, length_map, firstn_all2 by (rewrite length_map; lia).
      replace (10 - List.length pre)%nat with (S (9 - List.length pre)) by lia.
      reflexivity. }
    rewrite F, (repo_lines_bad_element pre x _ D). split; reflexivity.
  - intros s ->.
    rewrite (sync_list_repositories_reply w _ username H), sync_reply_ok.
    rewrite (async_list_repositories_reply w _ username H), decoded_ok.
    unfold Sync.repos_text. rewrite T. destruct s as [|c s]; [discriminate T |].
    split; reflexivity.
  - intros NL NS.
    rewrite (sync_list_repositories_reply w _ username H), sync_reply_ok.
    rewrite (async_list_repositories_reply w _ username H), decoded_ok.
    unfold Sync.repos_text. rewrite T.
    destruct v; try discriminate T; try (split; reflexivity).
    + now destruct (NS s).
    + now destruct (NL l).
Qed.

Lemma X9_error_object_example :
  fst (Sync.list_repositories
         (world_answering (ok (PDict [("message", PStr "Moved")]))) "octo") =
    Raised SubscriptError /\
  fst (Async.list_repositories
         (world_answering (ok (PDict [("message", PStr "Moved")]))) "octo") =
    Raised SubscriptError.
Proof.
  destruct (X9_listing_of_unexpected_shape
              (world_answering (ok (PDict [("message", PStr "Moved")]))) "octo"
              (PDict [("message", PStr "Moved")])) as [_ [_ S]].
  - intros h r. reflexivity.
  - reflexivity.
  - apply S; intros x E; discriminate E.
Defined.

(** ** The two files side by side *)

Lemma user_text_agree (v : pyval) : Sync.user_text v = Async.user_text v.
Proof. destruct v; try reflexivity. now rewrite sync_user_text, async_user_text. Qed.

Lemma repo_text_agree (v : pyval) : Sync.repo_text v = Async.repo_text v.
Proof. destruct v; try reflexivity. now rewrite sync_repo_text, async_repo_text. Qed.

Lemma pr_text_agree (v : pyval) : Sync.pr_text v = Async.pr_text v.
Proof. destruct v; try reflexivity. now rewrite sync_pr_text, async_pr_text. Qed.

Lemma merge_text_agree (n : Z) (v : pyval) : Sync.merge_text n v = Async.merge_text n v.
Proof. destruct v; try reflexivity. now rewrite sync_merge_text, async_merge_text. Qed.

(** X10.  On a success answer with a non-empty body the two files behave
    alike for every tool that reads the body: they return the same string,
    or raise the same exception.  They part only on failures, on empty
    bodies and in [delete_repository]. *)
Theorem X10_variants_agree_on_success (c : call) (w : world) (v : pyval) :
  reads_body c = true -> answers w (ok v) -> truthy v = true ->
  fst (run Synchronous c w) = fst (run Asynchronous c w).
Proof.
  intros R H T. destruct c; try discriminate R; cbn [run].
  - rewrite (sync_get_user_info_reply w _ _ H), (async_github_user_info_reply w _ _ H).
    rewrite sync_reply_ok, decoded_ok, T. apply user_text_agree.
  - rewrite (sync_create_repository_reply w _ _ _ _ H),
      (async_create_repository_reply w _ _ _ _ H).
    rewrite sync_reply_ok, decoded_ok, T. apply repo_text_agree.
  - rewrite (sync_create_pull_request_reply w _ _ _ _ _ _ _ H),
      (async_create_pull_request_reply w _ _ _ _ _ _ _ H).
    rewrite sync_reply_ok, decoded_ok, T. apply pr_text_agree.
  - rewrite (sync_merge_pull_request_reply w _ _ _ _ _ H),
      (async_merge_pull_request_reply w _ _ _ _ _ H).
    rewrite sync_reply_ok, decoded_ok, T. apply merge_text_agree.
  - rewrite (sync_list_repositories_reply w _ _ H), (async_list_repositories_reply w _ _ H).
    rewrite sync_reply_ok, decoded_ok, T. unfold Sync.repos_text. rewrite T. cbn [negb].
    destruct (slice v 10) as [items | e]; cbn [bind]; [| reflexivity].
    now rewrite repo_lines_agree.
Qed.

Lemma X10_variants_agree_example :
  fst (run Synchronous (UserInfo "octo")
         (world_answering (ok (PDict [("login", PStr "octo")])))) =
  fst (run Asynchronous (UserInfo "octo")
         (world_answering (ok (PDict [("login", PStr "octo")])))).
Proof.
  apply (X10_variants_agree_on_success (UserInfo "octo")
           (world_answering (ok (PDict [("login", PStr "octo")])))
           (PDict [("login", PStr "octo")])).
  - reflexivity.
  - intros h r. reflexivity.
  - reflexivity.
Defined.

(** ** The pull-request summaries *)

(** X11.  On a success answer with a non-empty object, [create_pull_request]
    returns in both files the five lines of [created_pr_lines] joined by
    line breaks, white space at the end removed.  Title, number, URL and
    state are those of the answer, not of the arguments; none has a default,
    so a missing one reads "None", and with the state missing the summary
    ends in "State: None". *)
Theorem X11_created_pull_request_summary (w : world)
    (owner repo title head base text : string) (d : dict) :
  answers w (ok (PDict d)) -> d <> [] ->
  fst (Sync.create_pull_request w owner repo title head base text) =
    Returned (rstrip (join nl (created_pr_lines d))) /\
  fst (Async.create_pull_request w owner repo title head base text) =
    Returned (rstrip (join nl (created_pr_lines d))) /\
  (forall k, lookup k d = None -> field d k PNone = "None") /\
  (lookup "state" d = None ->
   fst (Sync.create_pull_request w owner repo title head base text) =
     Returned (join nl [ "Pull Request created successfully!";
                         "Title: " ++ field d "title" PNone;
                         "PR #: " ++ field d "number" PNone;
                         "URL: " ++ field d "html_url" PNone;
                         "State: None" ])).
Proof.
  intros H N.
  assert (S : fst (Sync.create_pull_request w owner repo title head base text) =
              Returned (rstrip (join nl (created_pr_lines d)))).
  { rewrite (sync_create_pull_request_reply w _ _ _ _ _ _ _ H), sync_reply_ok.
    apply sync_pr_text. }
  split; [exact S | split; [| split]].
  - rewrite (async_create_pull_request_reply w _ _ _ _ _ _ _ H), decoded_ok.
    destruct d as [|kv d]; [now destruct N |]. cbn [truthy]. apply async_pr_text.
  - intros k P. now rewrite (field_absent d k PNone P).
  - intros P. rewrite S. f_equal. unfold created_pr_lines.
    rewrite (field_absent d "state" PNone P).
    apply kept_rstrip. cbn [join]. repeat apply kept_app. kept_literal.
Qed.

Lemma X11_created_pull_request_example :
  fst (Sync.create_pull_request
         (world_answering (ok (PDict [("title", PStr "Fix"); ("number", PInt 42)])))
         "octo" "demo" "ignored" "dev" "main" "") =
    Returned ("Pull Request created successfully!" ++ nl ++ "Title: Fix" ++ nl ++
              "PR #: 42" ++ nl ++ "URL: None" ++ nl ++ "State: None").
Proof.
  destruct (X11_created_pull_request_summary
              (world_answering (ok (PDict [("title", PStr "Fix"); ("number", PInt 42)])))
              "octo" "demo" "ignored" "dev" "main" ""
              [("title", PStr "Fix"); ("number", PInt 42)]) as [_ [_ [_ S]]].
  - intros h r. reflexivity.
  - discriminate.
  - apply S. reflexivity.
Defined.

(** X12.  On a success answer with a non-empty object, [merge_pull_request]
    returns in both files the three lines of [merged_lines], white space at
    the end removed.  The number on the first line is the [pull_number]
    argument, written in decimal; message and SHA come from the answer.
    When the SHA is a text that is not empty and does not end in white
    space, the summary ends in exactly that text. *)
Theorem X12_merged_pull_request_summary (w : world) (owner repo : string)
    (pull_number : Z) (commit_message sha : string) (d : dict) :
  answers w (ok (PDict d)) -> lookup "sha" d = Some (PStr sha) -> kept sha ->
  fst (Sync.merge_pull_request w owner repo pull_number commit_message) =
    Returned (join nl [ "Pull Request #" ++ str_int pull_number ++ " merged successfully!";
                        "Message: " ++ field d "message" PNone;
                        "SHA: " ++ sha ]) /\
  fst (Async.merge_pull_request w owner repo pull_number commit_message) =
    Returned (join nl [ "Pull Request #" ++ str_int pull_number ++ " merged successfully!";
                        "Message: " ++ field d "message" PNone;
                        "SHA: " ++ sha ]).
Proof.
  intros H P K.
  assert (E : rstrip (join nl (merged_lines pull_number d)) =
              join nl [ "Pull Request #" ++ str_int pull_number ++ " merged successfully!";
                        "Message: " ++ field d "message" PNone;
                        "SHA: " ++ sha ]).
  { unfold merged_lines. rewrite (field_present d "sha" PNone _ P).
    change (str (PStr sha)) with sha.
    apply kept_rstrip. cbn [join]. repeat apply kept_app. exact K. }
  split.
  - rewrite (sync_merge_pull_request_reply w _ _ _ _ _ H), sync_reply_ok.
    rewrite sync_merge_text. now rewrite E.
  - rewrite (async_merge_pull_request_reply w _ _ _ _ _ H), decoded_ok.
    destruct d as [|kv d]; [discriminate P |]. cbn [truthy].
    rewrite async_merge_text. now rewrite E.
Qed.

Lemma X12_merged_pull_request_example :
  fst (Async.merge_pull_request
         (world_answering
            (ok (PDict [("sha", PStr "abc123"); ("merged", PBool true);
                        ("message", PStr "Pull Request successfully merged")])))
         "octo" "demo" 7 "") =
    Returned ("Pull Request #7 merged successfully!" ++ nl ++
              "Message: Pull Request successfully merged" ++ nl ++ "SHA: abc123").
Proof.
  destruct (X12_merged_pull_request_summary
              (world_answering
                 (ok (PDict [("sha", PStr "abc123"); ("merged", PBool true);
                             ("message", PStr "Pull Request successfully merged")])))
              "octo" "demo" 7%Z "" "abc123"
              [("sha", PStr "abc123"); ("merged", PBool true);
               ("message", PStr "Pull Request successfully merged")]) as [_ A].
  - intros h r. reflexivity.
  - reflexivity.
  - split; [reflexivity | discriminate].
  - exact A.
Defined.

(** ** What [strip()] leaves *)

Lemma rstrip_cons (c : ascii) (s : string) :
  rstrip (String c s) = if isspace c && (rstrip s =? "") then "" else String c (rstrip s).
Proof. reflexivity. Qed.

Lemma rstrip_idem (s : string) : rstrip (rstrip s) = rstrip s.
Proof.
  induction s as [|c s IH]; [reflexivity |].
  rewrite rstrip_cons. destruct (isspace c && (rstrip s =? "")) eqn:E; [reflexivity |].
  now rewrite rstrip_cons, IH, E.
Qed.

Lemma strip_of_rstrip_solid (c : ascii) (s : string) :
  isspace c = false -> strip (rstrip (String c s)) = rstrip (String c s).
Proof.
  intros H. rewrite (rstrip_cons_solid c s H). unfold strip.
  change (lstrip (String c (rstrip s)))
    with (if isspace c then lstrip (rstrip s) else String c (rstrip s)).
  now rewrite H, (rstrip_cons_solid c _ H), rstrip_idem.
Qed.

Ltac already_stripped lines :=
  unfold lines; cbn [join]; simpl; apply strip_of_rstrip_solid; reflexivity.

(** X13.  Whatever string one of the four summary tools returns for a
    success answer, it neither begins nor ends with white space: stripping
    it again changes nothing.  White space at the end of the last field of
    the answer therefore never reaches the caller. *)
Theorem X13_summaries_are_stripped (v : variant) (c : call) (w : world) (answer : pyval)
    (s : string) :
  reads_object c = true -> answers w (ok answer) ->
  fst (run v c w) = Returned s -> strip s = s.
Proof.
  intros R H E. destruct v, c; try discriminate R; cbn [run] in E.
  - rewrite (sync_get_user_info_reply w _ _ H), sync_reply_ok in E.
    destruct answer; try discriminate E. rewrite sync_user_text in E.
    injection E as <-. already_stripped user_lines.
  - rewrite (sync_create_repository_reply w _ _ _ _ H), sync_reply_ok in E.
    destruct answer; try discriminate E. rewrite sync_repo_text in E.
    injection E as <-. already_stripped created_repo_lines.
  - rewrite (sync_create_pull_request_reply w _ _ _ _ _ _ _ H), sync_reply_ok in E.
    destruct answer; try discriminate E. rewrite sync_pr_text in E.
    injection E as <-. already_stripped created_pr_lines.
  - rewrite (sync_merge_pull_request_reply w _ _ _ _ _ H), sync_reply_ok in E.
    destruct answer; try discriminate E. rewrite sync_merge_text in E.
    injection E as <-. already_stripped merged_lines.
  - rewrite (async_github_user_info_reply w _ _ H), decoded_ok in E.
    destruct (truthy answer); [| injection E as <-; reflexivity].
    destruct answer; try discriminate E. rewrite async_user_text in E.
    injection E as <-. already_stripped user_lines.
  - rewrite (async_create_repository_reply w _ _ _ _ H), decoded_ok in E.
    destruct (truthy answer); [| injection E as <-; reflexivity].
    destruct answer; try discriminate E. rewrite async_repo_text in E.
    injection E as <-. already_stripped created_repo_lines.
  - rewrite (async_create_pull_request_reply w _ _ _ _ _ _ _ H), decoded_ok in E.
    destruct (truthy answer); [| injection E as <-; reflexivity].
    destruct answer; try discriminate E. rewrite async_pr_text in E.
    injection E as <-. already_stripped created_pr_lines.
  - rewrite (async_merge_pull_request_reply w _ _ _ _ _ H), decoded_ok in E.
    destruct (truthy answer); [| injection E as <-; reflexivity].
    destruct answer; try discriminate E. rewrite async_merge_text in E.
    injection E as <-. already_stripped merged_lines.
Qed.

Lemma X13_trailing_space_example :
  strip ("Pull Request #7 merged successfully!" ++ nl ++ "Message: None" ++ nl ++ "SHA: abc") =
  "Pull Request #7 merged successfully!" ++ nl ++ "Message: None" ++ nl ++ "SHA: abc".
Proof.
  apply (X13_summaries_are_stripped Synchronous (MergePullRequest "octo" "demo" 7 "")
           (world_answering (ok (PDict [("sha", PStr "abc  ")])))
           (PDict [("sha", PStr "abc  ")])).
  - reflexivity.
  - intros h r. reflexivity.
  - reflexivity.
Defined.

(** ** The start-up block *)

Lemma contains_prefixed (p s : string) : contains p (p ++ s) = true.
Proof. destruct p; cbn; [now destruct s | now rewrite Ascii.eqb_refl, startswith_app]. Qed.

Lemma contains_app_r (p a s : string) : contains p s = true -> contains p (a ++ s) = true.
Proof.
  intros H. induction a as [|c a IH]; [exact H |].
  cbn [append contains]. rewrite IH. apply orb_true_r.
Qed.

Lemma join_cons_extends (sep s : string) (rest : list string) :
  exists t, join sep (s :: rest) = s ++ t.
Proof.
  destruct rest as [|x rest].
  - exists "". cbn. now rewrite append_empty_r.
  - eexists. reflexivity.
Qed.

Lemma join_with_mcp_dev (before : list string) (x y : string) (after : list string) :
  contains "mcp dev" (join " " (List.app before ((x ++ "mcp") :: ("dev" ++ y) :: after))) = true.
Proof.
  induction before as [|a before IH].
  - destruct (join_cons_extends " " ("dev" ++ y) after) as [t E].
    cbn [List.app]. change (join " " ((x ++ "mcp") :: ("dev" ++ y) :: after))
      with ((x ++ "mcp") ++ " " ++ join " " (("dev" ++ y) :: after)).
    rewrite E, !append_assoc.
    apply contains_app_r. apply (contains_prefixed "mcp dev").
  - cbn [List.app].
    destruct (List.app before ((x ++ "mcp") :: ("dev" ++ y) :: after)) as [|b l] eqn:E.
    + destruct before; discriminate E.
    + change (join " " (a :: b :: l)) with (a ++ " " ++ join " " (b :: l)).
      apply contains_app_r. apply (contains_app_r _ " "). exact IH.
Qed.

Lemma contains_char_app (c : ascii) (a b : string) :
  contains_char c (a ++ b) = contains_char c a || contains_char c b.
Proof.
  induction a as [|x a IH]; cbn; [reflexivity |].
  now rewrite IH, orb_assoc.
Qed.

Lemma contains_needs_first (c : ascii) (p s : string) :
  contains (String c p) s = true -> contains_char c s = true.
Proof.
  induction s as [|x s IH]; cbn [contains startswith contains_char].
  - discriminate.
  - intros H. apply orb_true_iff in H. destruct H as [H | H].
    + apply andb_true_iff in H. destruct H as [H _].
      apply Ascii.eqb_eq in H. subst x. now rewrite Ascii.eqb_refl.
    + rewrite (IH H). apply orb_true_r.
Qed.

Lemma join_without_char (c : ascii) (sep : string) (parts : list string) :
  contains_char c sep = false ->
  (forall a, In a parts -> contains_char c a = false) ->
  contains_char c (join sep parts) = false.
Proof.
  intros S. induction parts as [|a parts IH]; intros H; [reflexivity |].
  destruct parts as [|b parts].
  - apply H. now left.
  - change (join sep (a :: b :: parts)) with (a ++ sep ++ join sep (b :: parts)).
    rewrite !contains_char_app, S, (H a (or_introl eq_refl)), IH; [reflexivity |].
    intros x I. apply H. now right.
Qed.

(** X14.  Started as a script, [github_server.py] prints one line, tests
    its arguments and then calls [mcp.serve].  [FastMCP] is outside the
    repository: if its object has no attribute [serve], the block raises
    [AttributeError] after the print, whatever the arguments.  If it has
    one, the call asks for host 127.0.0.1 and port 5000 when the arguments,
    joined by single spaces, contain "mcp dev", so whenever an argument
    ending in "mcp" is followed by one beginning with "dev"; and it passes
    no argument at all when no argument contains the letter "m". *)
Theorem X14_start_up_block (has_serve : bool) (before after argv : list string)
    (x y : string) :
  (forall a, In a argv -> contains_char "m" a = false) ->
  main has_serve (List.app before ((x ++ "mcp") :: ("dev" ++ y) :: after)) =
    (["Starting GitHub MCP server..."],
     if has_serve then Returned (mk_serve (Some "127.0.0.1") (Some 5000%Z))
     else Raised AttributeError) /\
  main has_serve argv =
    (["Starting GitHub MCP server..."],
     if has_serve then Returned (mk_serve None None) else Raised AttributeError).
Proof.
  intros M. split.
  - unfold main. now rewrite join_with_mcp_dev.
  - unfold main. destruct (contains "mcp dev" (join " " argv)) eqn:E; [| reflexivity].
    apply contains_needs_first in E.
    rewrite (join_without_char "m" " " argv eq_refl M) in E. discriminate E.
Qed.

Lemma X14_start_up_example :
  main false ["github_server.py"; "mcp"; "dev"] =
    (["Starting GitHub MCP server..."], Raised AttributeError) /\
  main false ["server.py"; "--port"; "8000"] =
    (["Starting GitHub MCP server..."], Raised AttributeError).
Proof.
  apply (X14_start_up_block false ["github_server.py"] []
           ["server.py"; "--port"; "8000"] "" "").
  intros a [<- | [<- | [<- | []]]]; reflexivity.
Defined.
